(** * bk7231tools: dissection of flash dumps

    A shallow embedding of [bk7231tools.py] (the [dissect_dump] command)
    and the properties of its dissection engine: the pattern-scan
    extractor, the container carving loop, the code-partition decryption
    helper and the orchestrating entry point.

    Python integers are [Z] (or [N] where the program only ever holds a
    flash address or a size), [bytes] objects are lists of [byte], the
    console, the file system and the cipher are recorded as a trace of
    events, and a raised exception ends the computation with [Raised].

    The operating system is taken to cooperate: the dump opens and is
    read, the output directory can be made, and every output file opens
    and is written. The exceptions of [exn] are those that the program
    raises itself or provokes by its own indexing; an [OSError] of a
    file operation, and anything a collaborator of [Env] may raise
    beyond the [ValueError] of the container parser, are not modelled,
    and the statements below speak of the exceptions of [exn] only. *)

From Stdlib Require Import ZArith List Lia.
From Stdlib.Strings Require Import Byte Ascii String.
From stdpp Require Import base gmap sets list strings.

Local Open Scope Z_scope.

(** ** Bytes and Python slicing *)

Abbreviation bytes := (list byte).

#[global] Instance byte_eq_dec : EqDecision byte := Byte.byte_eq_dec.

(** [b"\xFF" * 16] *)
Definition FF16 : bytes := replicate 16 xff.

(** Normalisation of one bound of a slice of a sequence of length [len]:
    a negative bound counts from the end, and every bound is clamped to
    [0 .. len]. *)
Definition py_bound (len i : Z) : Z :=
  if i <? 0 then Z.max 0 (i + len) else Z.min i len.

(** [l[a:b]] *)
Definition py_slice {A : Type} (l : list A) (a b : Z) : list A :=
  let len := Z.of_nat (length l) in
  let lo := py_bound len a in
  let hi := py_bound len b in
  take (Z.to_nat (hi - lo)) (drop (Z.to_nat lo) l).

(** [fs.seek(offset, os.SEEK_SET); fs.read(count)] on a file whose
    contents are [dump]: a read past the end of the file is cut short. *)
Definition file_read (dump : bytes) (offset count : N) : bytes :=
  take (N.to_nat count) (drop (N.to_nat offset) dump).

(** [int.from_bytes(b, byteorder='big')] *)
Definition int_from_bytes_big (b : bytes) : Z :=
  fold_left (fun acc x => acc * 256 + Z.of_N (Byte.to_N x)) b 0.

(** [range(0, stop, step)] for a positive [step]. *)
Definition py_range (stop step : Z) : list Z :=
  (fun k => Z.of_nat k * step) <$> seq 0 (Z.to_nat ((stop + step - 1) / step)).

(** ** [base64.b64decode]

    The decoder of CPython's [binascii.a2b_base64] in its default,
    non-strict mode: characters outside the alphabet are skipped, a pad
    character ends the input once the current quad is complete, and
    input that stops in the middle of a quad is an error. *)
Module base64.

Definition value (c : ascii) : option Z :=
  let n := Z.of_N (N_of_ascii c) in
  if (65 <=? n) && (n <=? 90) then Some (n - 65)
  else if (97 <=? n) && (n <=? 122) then Some (n - 71)
  else if (48 <=? n) && (n <=? 57) then Some (n + 4)
  else if n =? 43 then Some 62
  else if n =? 47 then Some 63
  else None.

Definition byte_of_Z (z : Z) : byte :=
  default x00 (Byte.of_N (Z.to_N (Z.land z 255))).

(** The decoder state: position in the quad, pad characters seen,
    bits left over from the previous character, output so far. *)
Fixpoint a2b (s : string) (quad_pos pads leftchar : Z) (out : bytes)
  : option bytes :=
  match s with
  | EmptyString => if quad_pos =? 0 then Some out else None
  | String c s' =>
      if Ascii.eqb c "=" then
        if (2 <=? quad_pos) && (4 <=? quad_pos + (pads + 1)) then Some out
        else a2b s' quad_pos (if 2 <=? quad_pos then pads + 1 else pads)
                 leftchar out
      else
        match value c with
        | None => a2b s' quad_pos pads leftchar out
        | Some v =>
            if quad_pos =? 0 then a2b s' 1 0 v out
            else if quad_pos =? 1 then
              a2b s' 2 0 (Z.land v 15)
                  (out ++ [byte_of_Z (Z.lor (Z.shiftl leftchar 2) (Z.shiftr v 4))])
            else if quad_pos =? 2 then
              a2b s' 3 0 (Z.land v 3)
                  (out ++ [byte_of_Z (Z.lor (Z.shiftl leftchar 4) (Z.shiftr v 2))])
            else
              a2b s' 0 0 0
                  (out ++ [byte_of_Z (Z.lor (Z.shiftl leftchar 6) v)])
        end
  end.

Definition b64decode (s : string) : option bytes := a2b s 0 0 0 [].

End base64.

(** ** Data model *)

(** [flash.FlashPartition]. Addresses and sizes are those of the layout
    registry, which are not negative. *)
Module FlashPartition.
Record t : Type := mk {
  name : string;
  start_address : N;
  size : N;
  mapped_address : N
}.
End FlashPartition.

(** [flash.FlashLayout] *)
Module FlashLayout.
Record t : Type := mk {
  name : string;
  partitions : list FlashPartition.t
}.
End FlashLayout.

(** [rbl.Header], with the fields the program reads; [algo] stands for
    [header.algo.name]. *)
Module Header.
Record t : Type := mk {
  name : string;
  version : string;
  algo : string
}.
End Header.

(** [rbl.Container]: [payload = None] is a header whose payload could
    not be recovered. *)
Module Container.
Record t : Type := mk {
  header : Header.t;
  payload : option bytes
}.
End Container.

(** The outcome of [rbl.Container.from_bytestream]: the [ValueError] it
    raises on a malformed header, with [e.args[0]], or the container. *)
Inductive parse_result : Type :=
| ParseError (reason : string)
| Parsed (container : Container.t).

(** The parsed command line of [dissect_dump]. *)
Module Args.
Record t : Type := mk {
  file : string;
  layout : string;
  output_dir : string;
  extract : bool;
  rbl : bool
}.
End Args.

(** ** Exceptions, events and the monad of effects *)

(** The exceptions of the program. The three [ValueError]s raised by the
    pattern scan are told apart by their raise site. *)
Inductive exn : Type :=
| PartitionNotFound (partition_name layout_name : string)
    (* "Partition name ... is unknown in layout ..." *)
| EndOfPartitionNotFound (partition_name : string)
    (* "Could not find end of partition for ..." *)
| ChecksumMismatch (partition_name : string)
    (* "First block level CRC-16 checks failed while analyzing partition ..." *)
| AttributeError      (* [None.partitions] *)
| IndexError          (* [xs[0]] on an empty list *)
| BinasciiError.      (* [base64.b64decode] on malformed input *)

(** The lines printed on the console, one constructor per [print]. *)
Inductive message : Type :=
| MsgAssumeExtract
| MsgRblContainers
| MsgOffset (idx : N)
| MsgFailedToParse (reason : string)
| MsgContainer (name algo : string) (size : nat)
| MsgInvalidPayload (name : string)
| MsgExtractedTo (output_directory : string)
| MsgMissing (name : string)
| MsgNoRbl (start_address : N) (name : string) (size : nat).

(** What a run does to the world, in order. *)
Inductive event : Type :=
| Print (m : message)
| EnsureDir (output_dir : string)
| OpenDump (dumpfile : string)                 (* [open(dumpfile, "rb")] *)
| OpenOut (path : string)                      (* [open(path, "wb")] *)
| WriteOut (path : string) (content : bytes)   (* [fsout.write(content)] *)
| B64Decode (encoded : string)                 (* [base64.b64decode(...)] *)
| CipherDecrypt (coefficients : list Z) (padded : bytes) (address : N).

Inductive outcome (A : Type) : Type :=
| Returned (a : A)
| Raised (e : exn).
Arguments Returned {A} a.
Arguments Raised {A} e.

(** A computation: the events it performed and how it ended. *)
Definition io (A : Type) : Type := (list event * outcome A)%type.

#[global] Instance io_ret : MRet io := fun A a => ([], Returned a).

#[global] Instance io_bind : MBind io := fun A B f m =>
  match m.2 with
  | Returned a => (m.1 ++ (f a).1, (f a).2)
  | Raised e => (m.1, Raised e)
  end.

Definition emit (e : event) : io unit := ([e], Returned tt).
Definition raise {A : Type} (e : exn) : io A := ([], Raised e).

Definition trace {A : Type} (m : io A) : list event := m.1.
Definition result {A : Type} (m : io A) : outcome A := m.2.

(** ** The collaborators outside this source file

    [bk7231tools.py] imports the layout registry, the container format,
    the block checksum and the cipher from other modules, and reaches
    the operating system through [os] and [pathlib]. They are the
    parameters of the development. *)
Class Env : Type := {
  (** [os.getcwd()] *)
  getcwd : string;
  (** [Path(p).stem] *)
  path_stem : string -> string;
  (** [os.path.join(a, b)] *)
  path_join : string -> string -> string;
  (** [flash.FLASH_LAYOUTS] *)
  FLASH_LAYOUTS : gmap string FlashLayout.t;
  (** [rbl.find_rbl_containers_indices(fs)], on the contents of [fs] *)
  find_rbl_containers_indices : bytes -> list N;
  (** [rbl.Container.from_bytestream(fs, layout)], on the contents of
      [fs] and the position it was moved to *)
  from_bytestream : bytes -> N -> option FlashLayout.t -> parse_result;
  (** the bytes that [container.write_to_bytestream(fsout, payload_only)]
      writes *)
  write_to_bytestream : Container.t -> bool -> bytes;
  (** [utils.block_crc_check(block, crc_bytes)] *)
  block_crc_check : bytes -> bytes -> bool;
  (** [BekenCodeCipher(coefficients).pad(payload)] *)
  cipher_pad : list Z -> bytes -> bytes;
  (** [BekenCodeCipher(coefficients).decrypt(padded, address)] *)
  cipher_decrypt : list Z -> bytes -> N -> bytes;
  (** the order in which a [for] loop visits a [set] of strings: every
      element once, in an order the language does not fix *)
  set_iter : gset string -> list string;
  set_iter_perm : forall s, set_iter s ≡ₚ elements s
}.

(** ** The program *)

Section Program.

Context `{env : Env}.

Definition __ensure_output_dir_exists (output_dir : string) : io string :=
  emit (EnsureDir output_dir);; mret output_dir.

Definition __generate_payload_output_file_path
    (dumpfile payload_name output_directory extra_tag : string) : string :=
  let dumpfile_name := path_stem dumpfile in
  path_join output_directory
    (dumpfile_name +:+ "_" +:+ payload_name +:+ "_" +:+ extra_tag +:+ ".bin").

Definition CODE_PARTITION_COEFFICIENTS_B64 : string :=
  "UQ+wk6PL6txZk6F+x63rAw==".

(** The tuple [coefficients] built from the decoded constant. *)
Definition coefficients_of (decoded : bytes) : list Z :=
  (fun i => int_from_bytes_big (py_slice decoded i (i + 4)))
    <$> py_range (Z.of_nat (length decoded)) 4.

Definition __decrypt_code_partition
    (partition : FlashPartition.t) (payload : bytes) : io bytes :=
  emit (B64Decode CODE_PARTITION_COEFFICIENTS_B64);;
  match base64.b64decode CODE_PARTITION_COEFFICIENTS_B64 with
  | None => raise BinasciiError
  | Some CODE_PARTITION_COEFFICIENTS =>
      let coefficients := coefficients_of CODE_PARTITION_COEFFICIENTS in
      let padded_payload := cipher_pad coefficients payload in
      emit (CipherDecrypt coefficients padded_payload
              (FlashPartition.mapped_address partition));;
      mret (cipher_decrypt coefficients padded_payload
              (FlashPartition.mapped_address partition))
  end.

(** [layout.partitions], where [layout] may be [None]. *)
Definition layout_partitions (layout : option FlashLayout.t)
  : io (list FlashPartition.t) :=
  match layout with
  | Some l => mret (FlashLayout.partitions l)
  | None => raise AttributeError
  end.

(** [xs[0]] *)
Definition first_item {A : Type} (xs : list A) : io A :=
  match xs with
  | x :: _ => mret x
  | [] => raise IndexError
  end.

Definition named (n : string) (p : FlashPartition.t) : bool :=
  bool_decide (FlashPartition.name p = n).

(** What the carving loop does with a container once it is appended to
    [containers]: from [if container.payload is not None:] to the end
    of the round. *)
Definition carve_container
    (dumpfile : string) (layout : option FlashLayout.t)
    (output_directory : string) (extract with_rbl : bool)
    (container : Container.t) : io unit :=
  let header := Container.header container in
  match Container.payload container with
  | Some payload =>
      emit (Print (MsgContainer (Header.name header) (Header.algo header)
                     (length payload)));;
      partitions ← layout_partitions layout;
      first ← first_item partitions;
      let partition :=
        default first (List.find (named (Header.name header)) partitions) in
      if extract then
        let filepath := __generate_payload_output_file_path
                          dumpfile (Header.name header) output_directory
                          (Header.version header) in
        emit (OpenOut filepath);;
        emit (WriteOut filepath (write_to_bytestream container (negb with_rbl)));;
        let decryptedpath := __generate_payload_output_file_path
                               dumpfile (Header.name header) output_directory
                               (Header.version header +:+ "_decrypted") in
        emit (OpenOut decryptedpath);;
        decrypted ← __decrypt_code_partition partition payload;
        emit (WriteOut decryptedpath decrypted);;
        emit (Print (MsgExtractedTo output_directory))
      else mret tt
  | None => emit (Print (MsgInvalidPayload (Header.name header)))
  end.

(** One round of [for idx in indices:]: the containers collected so
    far go in, the extended list comes out. *)
Definition carve_at
    (dumpfile : string) (dump : bytes) (layout : option FlashLayout.t)
    (output_directory : string) (extract with_rbl : bool)
    (containers : list Container.t) (idx : N) : io (list Container.t) :=
  emit (Print (MsgOffset idx));;
  container ← match from_bytestream dump idx layout with
              | Parsed c => mret (Some c)
              | ParseError reason =>
                  emit (Print (MsgFailedToParse reason));; mret None
              end;
  match container with
  | Some c =>
      let containers := containers ++ [c] in
      carve_container dumpfile layout output_directory extract with_rbl c;;
      mret containers
  | None => mret containers
  end.

Fixpoint carve_loop
    (dumpfile : string) (dump : bytes) (layout : option FlashLayout.t)
    (output_directory : string) (extract with_rbl : bool)
    (containers : list Container.t) (indices : list N)
  : io (list Container.t) :=
  match indices with
  | [] => mret containers
  | idx :: rest =>
      containers' ← carve_at dumpfile dump layout output_directory
                      extract with_rbl containers idx;
      carve_loop dumpfile dump layout output_directory extract with_rbl
        containers' rest
  end.

Definition __carve_and_write_rbl_containers
    (dumpfile : string) (dump : bytes) (layout : option FlashLayout.t)
    (output_directory : string) (extract with_rbl : bool)
  : io (list Container.t) :=
  emit (OpenDump dumpfile);;
  let indices := find_rbl_containers_indices dump in
  match indices with
  | [] => mret []
  | _ :: _ =>
      emit (Print MsgRblContainers);;
      carve_loop dumpfile dump layout output_directory extract with_rbl
        [] indices
  end.

(** *** The pattern scan *)

(** The first [while i > 0:] of the pattern scan: the search, from the
    end of the window, for a block of 16 FF bytes. [fuel] bounds the
    number of rounds. *)
Fixpoint end_marker_loop (fuel : nat) (data : bytes) (i : Z) : Z :=
  match fuel with
  | O => i
  | S fuel' =>
      if 0 <? i then
        let datablock := py_slice data (i - 16) i in
        if bool_decide (datablock = FF16) then i
        else end_marker_loop fuel' data (i - 16)
      else i
  end.

(** Every round takes 16 off [i], so [i] rounds are more than enough
    (see [find_end_marker_eq]). *)
Definition find_end_marker (data : bytes) (i : Z) : Z :=
  end_marker_loop (Z.to_nat i) data i.

(** The test of the second loop at position [i]. *)
Definition boundary_here (data : bytes) (i : Z) : bool :=
  let datablock := py_slice data (i - 16) i in
  bool_decide (datablock ≠ FF16)
  && bool_decide (py_slice data (i - 32) (i - 16) = FF16).

(** The second [while i > 0:]: the search for the first CRC-16 block
    and the padding block right before it. *)
Fixpoint boundary_loop (fuel : nat) (data : bytes) (i : Z) : Z :=
  match fuel with
  | O => i
  | S fuel' =>
      if 0 <? i then
        if boundary_here data i then i - 16 + 2
        else boundary_loop fuel' data (i - 16)
      else i
  end.

Definition find_boundary (data : bytes) (i : Z) : Z :=
  boundary_loop (Z.to_nat i) data i.

(** [while block:], on the stream left to read, the block just read,
    the flag [first] and the contents of [final_payload]. *)
Fixpoint crc_loop (fuel : nat) (partition_name : string)
    (stream block : bytes) (first : bool) (final_payload : bytes)
  : io bytes :=
  match fuel with
  | O => mret final_payload
  | S fuel' =>
      match block with
      | [] => mret final_payload
      | _ :: _ =>
          let crc_bytes := take 2 stream in
          let stream := drop 2 stream in
          if negb (block_crc_check block crc_bytes) then
            if first then raise (ChecksumMismatch partition_name)
            else mret final_payload
          else
            crc_loop fuel' partition_name (drop 32 stream) (take 32 stream)
              false (final_payload ++ block)
      end
  end.

(** The walk from [block_io_stream = io.BytesIO(payload)] to
    [final_payload.getbuffer()]. Every round reads a block that is not
    empty, so one round per byte of [payload] is enough (see
    [crc_loop_fuel]). *)
Definition crc_walk (partition_name : string) (payload : bytes) : io bytes :=
  crc_loop (S (length payload)) partition_name
    (drop 32 payload) (take 32 payload) true [].

(** The region handed to the walk: [data[:i]] after the two loops, or
    the whole window read again when that is empty. *)
Definition candidate_region (dump : bytes) (partition : FlashPartition.t)
  : io bytes :=
  let data := file_read dump (FlashPartition.start_address partition)
                (FlashPartition.size partition) in
  let i := Z.of_N (FlashPartition.size partition) in
  let i := find_end_marker data i in
  if i <=? 0 then
    raise (EndOfPartitionNotFound (FlashPartition.name partition))
  else
    let i := find_boundary data i in
    let payload := py_slice data 0 i in
    match payload with
    | [] => mret (file_read dump (FlashPartition.start_address partition)
                    (FlashPartition.size partition))
    | _ :: _ => mret payload
    end.

(** The pattern scan once [partition] has been looked up: the body of
    [__scan_pattern_find_payload] from [with open(dumpfile, "rb")] on. *)
Definition scan_partition
    (dumpfile : string) (dump : bytes) (partition_name : string)
    (partition : FlashPartition.t) (output_directory : string)
    (extract : bool) : io bytes :=
  emit (OpenDump dumpfile);;
  payload ← candidate_region dump partition;
  final_payload_data ← crc_walk (FlashPartition.name partition) payload;
  emit (Print (MsgNoRbl (FlashPartition.start_address partition)
                 (FlashPartition.name partition)
                 (length final_payload_data)));;
  (if extract then
     let filepath := __generate_payload_output_file_path
                       dumpfile partition_name output_directory
                       "pattern_scan" in
     emit (OpenOut filepath);;
     emit (WriteOut filepath final_payload_data);;
     let decryptedpath := __generate_payload_output_file_path
                            dumpfile partition_name output_directory
                            "pattern_scan_decrypted" in
     emit (OpenOut decryptedpath);;
     decrypted ← __decrypt_code_partition partition final_payload_data;
     emit (WriteOut decryptedpath decrypted);;
     emit (Print (MsgExtractedTo output_directory))
   else mret tt);;
  mret final_payload_data.

Definition __scan_pattern_find_payload
    (dumpfile : string) (dump : bytes) (partition_name : string)
    (layout : FlashLayout.t) (output_directory : string) (extract : bool)
  : io bytes :=
  let names : gset string :=
    list_to_set (FlashPartition.name <$> FlashLayout.partitions layout) in
  if negb (bool_decide (partition_name ∈ names)) then
    raise (PartitionNotFound partition_name (FlashLayout.name layout))
  else
    partition ← first_item
                  (List.filter (named partition_name)
                     (FlashLayout.partitions layout));
    scan_partition dumpfile dump partition_name partition
      output_directory extract.

(** *** The entry point *)

(** [for missing in missing_rbl_containers:] *)
Fixpoint fallback_loop
    (dumpfile : string) (dump : bytes) (layout : FlashLayout.t)
    (output_directory : string) (extract : bool) (todo : list string)
  : io unit :=
  match todo with
  | [] => mret tt
  | missing :: rest =>
      emit (Print (MsgMissing missing));;
      __scan_pattern_find_payload dumpfile dump missing layout
        output_directory extract;;
      fallback_loop dumpfile dump layout output_directory extract rest
  end.

(** [{container.header.name for container in containers
      if container.payload is not None}] *)
Definition container_names (containers : list Container.t) : gset string :=
  list_to_set
    ((fun c => Header.name (Container.header c))
       <$> List.filter (fun c => bool_decide (Container.payload c ≠ None))
             containers).

(** [{part.name for part in layout.partitions}] *)
Definition partition_names (layout : FlashLayout.t) : gset string :=
  list_to_set (FlashPartition.name <$> FlashLayout.partitions layout).

(** [dissect_dump_file(args)], where [dump] is the contents of the
    file [args.file]. *)
Definition dissect_dump_file (args : Args.t) (dump : bytes) : io unit :=
  let dumpfile := Args.file args in
  let flash_layout := Args.layout args in
  let default_output_dir := getcwd in
  let output_directory :=
    if bool_decide (Args.output_dir args = "") then default_output_dir
    else Args.output_dir args in
  let layout := FLASH_LAYOUTS !! flash_layout in
  extract ← (if bool_decide (output_directory ≠ default_output_dir)
                && negb (Args.extract args)
             then emit (Print MsgAssumeExtract);; mret true
             else mret (Args.extract args));
  output_directory ← (if extract
                      then __ensure_output_dir_exists output_directory
                      else mret output_directory);
  containers ← __carve_and_write_rbl_containers dumpfile dump layout
                 output_directory extract (Args.rbl args);
  let container_names := container_names containers in
  match layout with
  | None => raise AttributeError          (* [layout.partitions] *)
  | Some layout =>
      let missing_rbl_containers := partition_names layout ∖ container_names in
      fallback_loop dumpfile dump layout output_directory extract
        (set_iter missing_rbl_containers)
  end.

End Program.

(** ** Vocabulary of the properties *)

(** The 16 bytes that end at offset [i] of the window exist and are all
    0xFF. *)
Definition erased_chunk (data : bytes) (i : Z) : Prop :=
  16 <= i /\ take 16 (drop (Z.to_nat (i - 16)) data) = FF16.

#[global] Instance erased_chunk_dec data i : Decision (erased_chunk data i).
Proof. unfold erased_chunk. apply _. Defined.

(** The chunk that ends at [i] holds data and the chunk before it, at
    lower addresses, is erased. *)
Definition payload_boundary (data : bytes) (i : Z) : Prop :=
  ~ erased_chunk data i /\ erased_chunk data (i - 16).

(** Unit [k] of a region: 32 bytes of data at offset [34 * k], then a
    2-byte checksum. The last unit of a region may be cut short. *)
Definition unit_data (payload : bytes) (k : nat) : bytes :=
  take 32 (drop (34 * k) payload).

Definition unit_crc (payload : bytes) (k : nat) : bytes :=
  take 2 (drop (34 * k + 32) payload).

Definition unit_valid `{env : Env} (payload : bytes) (k : nat) : bool :=
  block_crc_check (unit_data payload k) (unit_crc payload k).

(** The data blocks of units [0 .. k - 1], checksums left out. *)
Definition validated_data (payload : bytes) (k : nat) : bytes :=
  concat (unit_data payload <$> seq 0 k).

(** Fuel that covers the rounds left from a state of the loop. *)
Definition enough_fuel (fuel : nat) (stream block : bytes) : Prop :=
  match block with
  | [] => (1 <= fuel)%nat
  | _ :: _ => (length stream + 2 <= fuel)%nat
  end.

(** The 16 bytes that the embedded constant decodes to, and the four
    coefficients they spell. *)
Definition CODE_PARTITION_COEFFICIENTS : bytes :=
  [x51; x0f; xb0; x93; xa3; xcb; xea; xdc;
   x59; x93; xa1; x7e; xc7; xad; xeb; x03].

Definition COEFFICIENTS : list Z :=
  [0x510fb093; 0xa3cbeadc; 0x5993a17e; 0xc7adeb03].

(** What the scan does after a walk that returned [final]. *)
Definition scan_outputs `{env : Env} (dumpfile n out : string)
    (partition : FlashPartition.t) (extract : bool) (final : bytes)
  : list event :=
  Print (MsgNoRbl (FlashPartition.start_address partition)
           (FlashPartition.name partition) (length final))
  :: if extract then
       let filepath := __generate_payload_output_file_path
                         dumpfile n out "pattern_scan" in
       let decryptedpath := __generate_payload_output_file_path
                              dumpfile n out "pattern_scan_decrypted" in
       [OpenOut filepath; WriteOut filepath final; OpenOut decryptedpath;
        B64Decode CODE_PARTITION_COEFFICIENTS_B64;
        CipherDecrypt COEFFICIENTS (cipher_pad COEFFICIENTS final)
          (FlashPartition.mapped_address partition);
        WriteOut decryptedpath
          (cipher_decrypt COEFFICIENTS (cipher_pad COEFFICIENTS final)
             (FlashPartition.mapped_address partition));
        Print (MsgExtractedTo out)]
     else [].


(** The outcome of the boundary search on the window of [partition],
    from the end-of-data marker [i0] that the first loop found. Either
    there is a first payload boundary among the chunks that end at [i0],
    [i0 - 16], ... and the candidate region is the window up to two
    bytes past the start of the data chunk of that boundary; or none of
    these chunks is a payload boundary and the candidate region is the
    whole window. *)
Definition boundary_located (dump : bytes)
    (partition : FlashPartition.t) : Prop :=
  let data := file_read dump (FlashPartition.start_address partition)
                (FlashPartition.size partition) in
  let i0 := find_end_marker data (Z.of_N (FlashPartition.size partition)) in
  (exists k : nat,
      0 < i0 - 16 * Z.of_nat k
      /\ payload_boundary data (i0 - 16 * Z.of_nat k)
      /\ (forall k' : nat, (k' < k)%nat ->
            ~ payload_boundary data (i0 - 16 * Z.of_nat k'))
      /\ candidate_region dump partition
         = ([], Returned (take (Z.to_nat (i0 - 16 * Z.of_nat k - 16 + 2)) data)))
  \/ ((forall k : nat, 0 < i0 - 16 * Z.of_nat k ->
         ~ payload_boundary data (i0 - 16 * Z.of_nat k))
      /\ candidate_region dump partition = ([], Returned data)).

(** The container that the parser makes of the header at [idx], if it
    makes one. *)
Definition parsed_at `{env : Env} (dump : bytes) (layout : option FlashLayout.t)
    (idx : N) : option Container.t :=
  match from_bytestream dump idx layout with
  | Parsed c => Some c
  | ParseError _ => None
  end.


(** The names that a run announced with the notice "Missing ... RBL
    container. Using a scan pattern instead", in order. *)
Definition missing_name (e : event) : option string :=
  match e with
  | Print (MsgMissing n) => Some n
  | _ => None
  end.

Definition routed_to_fallback (tr : list event) : list string :=
  omap missing_name tr.


(** The events of a run that has neither recovered a payload nor started
    the fallback: console lines of the carving loop, the output
    directory, and the opening of the dump. *)
Definition preliminary (e : event) : Prop :=
  match e with
  | Print MsgAssumeExtract | Print MsgRblContainers | Print (MsgOffset _)
  | Print (MsgFailedToParse _) | Print (MsgContainer _ _ _)
  | Print (MsgInvalidPayload _) | EnsureDir _ | OpenDump _ => True
  | _ => False
  end.

(** How many times a run decoded the embedded constant. *)
Definition decodes (tr : list event) : nat :=
  length (List.filter (fun e => match e with B64Decode _ => true | _ => false end) tr).

(** What the carving loop does with a container that has a payload when
    extraction is on and [partition] is the partition it selected. *)
Definition container_outputs `{env : Env} (dumpfile out : string)
    (with_rbl : bool) (container : Container.t) (payload : bytes)
    (partition : FlashPartition.t) : list event :=
  let header := Container.header container in
  let filepath := __generate_payload_output_file_path
                    dumpfile (Header.name header) out (Header.version header) in
  let decryptedpath := __generate_payload_output_file_path
                         dumpfile (Header.name header) out
                         (Header.version header +:+ "_decrypted") in
  [Print (MsgContainer (Header.name header) (Header.algo header) (length payload));
   OpenOut filepath;
   WriteOut filepath (write_to_bytestream container (negb with_rbl));
   OpenOut decryptedpath;
   B64Decode CODE_PARTITION_COEFFICIENTS_B64;
   CipherDecrypt COEFFICIENTS (cipher_pad COEFFICIENTS payload)
     (FlashPartition.mapped_address partition);
   WriteOut decryptedpath
     (cipher_decrypt COEFFICIENTS (cipher_pad COEFFICIENTS payload)
        (FlashPartition.mapped_address partition));
   Print (MsgExtractedTo out)].

(** The entry point once [extract] and [output_directory] are settled:
    [dissect_dump_file] from the call of the carving loop on. *)
Definition dissect_main `{env : Env} (args : Args.t) (dump : bytes)
    (extract : bool) (output_directory : string) : io unit :=
  containers ← __carve_and_write_rbl_containers (Args.file args) dump
                 (FLASH_LAYOUTS !! Args.layout args) output_directory extract
                 (Args.rbl args);
  match FLASH_LAYOUTS !! Args.layout args with
  | None => raise AttributeError
  | Some layout =>
      fallback_loop (Args.file args) dump layout output_directory extract
        (set_iter (partition_names layout ∖ container_names containers))
  end.

(** The number of units of a region, the last one possibly cut short. *)
Definition unit_count (payload : bytes) : nat := (length payload + 33) / 34.

(** The partition window that the pattern scan reads. *)
Definition window (dump : bytes) (partition : FlashPartition.t) : bytes :=
  file_read dump (FlashPartition.start_address partition)
    (FlashPartition.size partition).

(** The output directory and the extraction flag that the entry point
    settles on before it opens the dump. *)
Definition output_directory_of `{env : Env} (args : Args.t) : string :=
  if bool_decide (Args.output_dir args = "") then getcwd
  else Args.output_dir args.

Definition extraction_on `{env : Env} (args : Args.t) : bool :=
  Args.extract args || bool_decide (output_directory_of args ≠ getcwd).

(** The paths of the naming scheme: for a partition of the layout the
    two files of the pattern scan, for a container that parses at a
    located offset the two files tagged with its version. *)
Definition output_path `{env : Env} (dumpfile out : string) (dump : bytes)
    (layout : option FlashLayout.t) (path : string) : Prop :=
  (exists l n,
      layout = Some l
      /\ n ∈ FlashPartition.name <$> FlashLayout.partitions l
      /\ (path = __generate_payload_output_file_path dumpfile n out
                   "pattern_scan"
          \/ path = __generate_payload_output_file_path dumpfile n out
                      "pattern_scan_decrypted"))
  \/ (exists idx c,
        idx ∈ find_rbl_containers_indices dump
        /\ parsed_at dump layout idx = Some c
        /\ (path = __generate_payload_output_file_path dumpfile
                     (Header.name (Container.header c)) out
                     (Header.version (Container.header c))
            \/ path = __generate_payload_output_file_path dumpfile
                        (Header.name (Container.header c)) out
                        (Header.version (Container.header c) +:+ "_decrypted"))).

(** What a run may do after it has settled on [out] and [extract]: print,
    open the dump, and, only when extraction is on, write files of the
    naming scheme, decode the embedded constant and run the cipher with
    the fixed coefficients and the mapped address of a partition of the
    layout. *)
Definition allowed `{env : Env} (dumpfile out : string) (extract : bool)
    (dump : bytes) (layout : option FlashLayout.t) (e : event) : Prop :=
  match e with
  | Print _ => True
  | OpenDump d => d = dumpfile
  | EnsureDir _ => False
  | OpenOut path | WriteOut path _ =>
      extract = true /\ output_path dumpfile out dump layout path
  | B64Decode s => extract = true /\ s = CODE_PARTITION_COEFFICIENTS_B64
  | CipherDecrypt c _ address =>
      extract = true /\ c = COEFFICIENTS
      /\ exists l p, layout = Some l /\ p ∈ FlashLayout.partitions l
                     /\ address = FlashPartition.mapped_address p
  end.

(** The events of a run that reads and prints only. *)
Definition read_only (dumpfile : string) (e : event) : Prop :=
  match e with
  | Print _ => True
  | OpenDump d => d = dumpfile
  | _ => False
  end.

(** The events of any run of the entry point. *)
Definition in_scheme `{env : Env} (args : Args.t) (dump : bytes) (e : event)
  : Prop :=
  match e with
  | Print _ => True
  | OpenDump d => d = Args.file args
  | EnsureDir d => d = output_directory_of args
  | OpenOut path | WriteOut path _ =>
      output_path (Args.file args) (output_directory_of args) dump
        (FLASH_LAYOUTS !! Args.layout args) path
  | B64Decode s => s = CODE_PARTITION_COEFFICIENTS_B64
  | CipherDecrypt c _ address =>
      c = COEFFICIENTS
      /\ exists l p, FLASH_LAYOUTS !! Args.layout args = Some l
                     /\ p ∈ FlashLayout.partitions l
                     /\ address = FlashPartition.mapped_address p
  end.

#[global] Instance payload_boundary_dec data i :
  Decision (payload_boundary data i).
Proof. unfold payload_boundary. apply _. Defined.

(** ** A small world to run the program in

    A toy instance of the collaborators and two dumps, on which the
    statements below are evaluated. *)
Module Demo.

(** A header signature is the byte ["R"]. *)
Fixpoint signature_offsets (dump : bytes) (offset : N) : list N :=
  match dump with
  | [] => []
  | b :: dump' =>
      if bool_decide (b = "R"%byte) then offset :: signature_offsets dump' (offset + 1)
      else signature_offsets dump' (offset + 1)
  end.

(** The byte after the signature tells what the toy parser makes of the
    header: ["A"] a container for [app], ["N"] one whose payload is
    lost, ["G"] a container for a name no layout has, anything else a
    malformed header. *)
Definition parse (dump : bytes) (idx : N) (layout : option FlashLayout.t)
  : parse_result :=
  match drop (N.to_nat idx + 1) dump with
  | "A"%byte :: rest =>
      Parsed (Container.mk (Header.mk "app" "1.0" "NONE") (Some (take 2 rest)))
  | "N"%byte :: _ =>
      Parsed (Container.mk (Header.mk "app" "1.0" "NONE") None)
  | "G"%byte :: rest =>
      Parsed (Container.mk (Header.mk "ghost" "0.1" "NONE") (Some (take 2 rest)))
  | _ => ParseError "bad header"
  end.

(** The toy checksum of a block: a zero byte, then the first byte of
    the block. *)
Definition crc_check (block crc_bytes : bytes) : bool :=
  bool_decide (crc_bytes = x00 :: take 1 block).

#[local] Instance world : Env := {|
  getcwd := "/work";
  path_stem := fun p => p;
  path_join := fun a b => a +:+ "/" +:+ b;
  FLASH_LAYOUTS :=
    {[ "demo" := FlashLayout.mk "demo"
                   [FlashPartition.mk "boot" 0 96 0;
                    FlashPartition.mk "app" 96 96 65536] ]};
  find_rbl_containers_indices := fun dump => signature_offsets dump 0;
  from_bytestream := parse;
  write_to_bytestream := fun c payload_only =>
    if payload_only then default [] (Container.payload c)
    else "R"%byte :: default [] (Container.payload c);
  block_crc_check := crc_check;
  cipher_pad := fun _ payload => payload;
  cipher_decrypt := fun _ padded _ => padded;
  set_iter := elements;
  set_iter_perm := fun s => reflexivity (elements s)
|}.

Definition boot : FlashPartition.t := FlashPartition.mk "boot" 0 96 0.
Definition app : FlashPartition.t := FlashPartition.mk "app" 96 96 65536.
Definition layout : FlashLayout.t := FlashLayout.mk "demo" [boot; app].

(** One unit of data, its checksum, then erased flash: the data runs to
    the end of its 32 bytes, so the second loop finds no boundary. *)
Definition boot_window : bytes :=
  replicate 32 "A"%byte ++ [x00; "A"%byte] ++ replicate 62 xff.

(** One unit whose last 16 data bytes are 0xFF, its checksum, then
    erased flash: the second loop finds the boundary at offset 34. *)
Definition app_window : bytes :=
  replicate 16 "B"%byte ++ replicate 16 xff ++ [x00; "B"%byte]
    ++ replicate 62 xff.

(** A dump with no container header. *)
Definition dump : bytes := boot_window ++ app_window.

(** A dump with no erased chunk at all. *)
Definition full_dump : bytes := replicate 192 x00.

(** Three signatures: a malformed header, a container for [app], and a
    container whose payload is lost. *)
Definition rbl_dump : bytes :=
  ["R"; "?"; "R"; "A"; "p"; "q"; "R"; "N"]%byte.

(** A window of 24 bytes, which is not a whole number of chunks: 8
    bytes of data and 16 erased bytes. *)
Definition odd : FlashPartition.t := FlashPartition.mk "odd" 0 24 0.
Definition odd_dump : bytes := replicate 8 x00 ++ replicate 16 xff.

Definition ghost : Container.t :=
  Container.mk (Header.mk "ghost" "0.1" "NONE") (Some ["p"; "q"]%byte).

Definition args (layout : string) (extract : bool) : Args.t :=
  Args.mk "dump.bin" layout "" extract false.

(** A reading of the demo layout in which [app] holds code and [boot]
    does not. *)
Definition holds_code (p : FlashPartition.t) : bool :=
  bool_decide (FlashPartition.name p = "app").

(** A dump whose two windows are wholly erased. *)
Definition erased_dump : bytes := replicate 192 xff.

(** The demo dump with the window of [boot] overwritten. *)
Definition other_dump : bytes := replicate 96 x00 ++ app_window.

(** A layout without partitions. *)
Definition empty_layout : FlashLayout.t := FlashLayout.mk "empty" [].

(** The container that the toy parser makes at offset 2 of [rbl_dump]. *)
Definition app_container : Container.t :=
  Container.mk (Header.mk "app" "1.0" "NONE") (Some ["p"; "q"]%byte).

(** A command line with an output directory and without [-e]. *)
Definition args_out : Args.t := Args.mk "dump.bin" "demo" "/out" false false.

End Demo.
(** ** Properties *)

(** *** Slices and chunks *)

Lemma FF16_length : length FF16 = 16%nat.
Proof. reflexivity. Qed.

Lemma py_bound_range (len i : Z) : 0 <= len -> 0 <= py_bound len i <= len.
Proof. unfold py_bound. destruct (i <? 0) eqn:E; lia. Qed.

Lemma py_slice_length {A : Type} (l : list A) (a b : Z) :
  Z.of_nat (length (py_slice l a b))
  = Z.max 0 (py_bound (Z.of_nat (length l)) b - py_bound (Z.of_nat (length l)) a).
Proof.
  unfold py_slice. rewrite length_take, length_drop.
  pose proof (py_bound_range (Z.of_nat (length l)) a).
  pose proof (py_bound_range (Z.of_nat (length l)) b).
  lia.
Qed.

(** A slice whose bounds are inside the list is the plain sub-list. *)
Lemma py_slice_inside {A : Type} (l : list A) (a b : Z) :
  0 <= a -> 0 <= b <= Z.of_nat (length l) ->
  py_slice l a b = take (Z.to_nat (b - a)) (drop (Z.to_nat a) l).
Proof.
  intros Ha Hb. unfold py_slice, py_bound.
  destruct (a <? 0) eqn:Ea; [lia|].
  destruct (b <? 0) eqn:Eb; [lia|].
  destruct (Z.le_gt_cases a (Z.of_nat (length l))).
  - by rewrite !Z.min_l by lia.
  - replace (Z.to_nat (Z.min b _ - Z.min a _)) with 0%nat by lia.
    by replace (Z.to_nat (b - a)) with 0%nat by lia.
Qed.

(** [data[:i]] for a bound that is not negative. *)
Lemma py_slice_prefix {A : Type} (l : list A) (i : Z) :
  0 <= i -> py_slice l 0 i = take (Z.to_nat i) l.
Proof.
  intros Hi. unfold py_slice, py_bound.
  change (0 <? 0) with false. cbv iota.
  destruct (i <? 0) eqn:Ei; [lia|].
  replace (Z.to_nat (Z.min 0 _)) with 0%nat by lia.
  rewrite drop_0.
  destruct (Z.le_gt_cases i (Z.of_nat (length l))).
  - f_equal. lia.
  - rewrite !take_ge; [done | lia | lia].
Qed.

(** At the positions the loops visit, the block the program compares
    with [b"\xFF" * 16] is that chunk. *)
Lemma datablock_erased (data : bytes) (i : Z) :
  0 <= i -> py_slice data (i - 16) i = FF16 <-> erased_chunk data i.
Proof.
  intros Hi. unfold erased_chunk. split.
  - intros H.
    assert (Hlen : Z.of_nat (length (py_slice data (i - 16) i)) = 16)
      by (by rewrite H).
    rewrite py_slice_length in Hlen. unfold py_bound in Hlen.
    destruct (i <? 0) eqn:E1; [lia|].
    destruct (i - 16 <? 0) eqn:E2; [lia|].
    assert (i <= Z.of_nat (length data)) by lia.
    split; [lia|].
    rewrite <- H, py_slice_inside by lia.
    by replace (i - (i - 16)) with 16 by lia.
  - intros [H16 H].
    assert (Hlen : length (take 16 (drop (Z.to_nat (i - 16)) data)) = 16%nat)
      by (by rewrite H).
    rewrite length_take, length_drop in Hlen.
    rewrite py_slice_inside by lia.
    by replace (i - (i - 16)) with 16 by lia.
Qed.

(** *** The two backward loops do not run out of fuel *)

Lemma end_marker_loop_fuel (data : bytes) (fuel1 fuel2 : nat) (i : Z) :
  (Z.to_nat i <= fuel1)%nat -> (Z.to_nat i <= fuel2)%nat ->
  end_marker_loop fuel1 data i = end_marker_loop fuel2 data i.
Proof.
  revert fuel2 i. induction fuel1 as [|fuel1 IH]; intros [|fuel2] i H1 H2;
    simpl; destruct (0 <? i) eqn:Hi; try done; try lia.
  case_bool_decide; [done|]. apply IH; lia.
Qed.

(** The loop, as the program text reads. *)
Lemma find_end_marker_eq (data : bytes) (i : Z) :
  find_end_marker data i =
  if 0 <? i then
    if bool_decide (py_slice data (i - 16) i = FF16) then i
    else find_end_marker data (i - 16)
  else i.
Proof.
  unfold find_end_marker. destruct (Z.to_nat i) as [|n] eqn:Hn; simpl.
  - destruct (0 <? i) eqn:Hi; [lia | done].
  - destruct (0 <? i) eqn:Hi; [|done].
    case_bool_decide; [done|]. apply end_marker_loop_fuel; lia.
Qed.

Lemma boundary_loop_fuel (data : bytes) (fuel1 fuel2 : nat) (i : Z) :
  (Z.to_nat i <= fuel1)%nat -> (Z.to_nat i <= fuel2)%nat ->
  boundary_loop fuel1 data i = boundary_loop fuel2 data i.
Proof.
  revert fuel2 i. induction fuel1 as [|fuel1 IH]; intros [|fuel2] i H1 H2;
    simpl; destruct (0 <? i) eqn:Hi; try done; try lia.
  destruct (boundary_here data i); [done|]. apply IH; lia.
Qed.

Lemma find_boundary_eq (data : bytes) (i : Z) :
  find_boundary data i =
  if 0 <? i then
    if boundary_here data i then i - 16 + 2
    else find_boundary data (i - 16)
  else i.
Proof.
  unfold find_boundary. destruct (Z.to_nat i) as [|n] eqn:Hn; simpl.
  - destruct (0 <? i) eqn:Hi; [lia | done].
  - destruct (0 <? i) eqn:Hi; [|done].
    destruct (boundary_here data i); [done|]. apply boundary_loop_fuel; lia.
Qed.

(** *** Where the first loop stops *)

(** The positions the first loop visits from [i]: [i], [i - 16], ...
    while positive. The loop stops at the first of them that ends an
    erased chunk, and leaves [i <= 0] when there is none. *)
Lemma find_end_marker_spec (data : bytes) (i : Z) :
  (exists k : nat,
      0 < i - 16 * Z.of_nat k
      /\ erased_chunk data (i - 16 * Z.of_nat k)
      /\ (forall k' : nat, (k' < k)%nat ->
            ~ erased_chunk data (i - 16 * Z.of_nat k'))
      /\ find_end_marker data i = i - 16 * Z.of_nat k)
  \/ ((forall k : nat, 0 < i - 16 * Z.of_nat k ->
         ~ erased_chunk data (i - 16 * Z.of_nat k))
      /\ find_end_marker data i <= 0).
Proof.
  remember (Z.to_nat i) as n eqn:Hn. revert i Hn.
  induction n as [n IH] using lt_wf_ind. intros i Hn.
  rewrite find_end_marker_eq. destruct (0 <? i) eqn:Hi.
  - case_bool_decide as Hff.
    + left. exists 0%nat. rewrite Z.mul_0_r, Z.sub_0_r.
      split_and!; [lia | by apply datablock_erased; [lia|] | lia | done].
    + assert (Hno : ~ erased_chunk data i)
        by (intros ?; apply Hff, datablock_erased; [lia | done]).
      destruct (IH (Z.to_nat (i - 16)) ltac:(lia) (i - 16) eq_refl)
        as [(k & Hpos & Hk & Hfirst & ->) | [Hnone Hle]].
      * left. exists (S k).
        replace (i - 16 * Z.of_nat (S k)) with (i - 16 - 16 * Z.of_nat k) by lia.
        split_and!; [done | done | | done].
        intros [|k'] Hlt.
        -- by rewrite Z.mul_0_r, Z.sub_0_r.
        -- replace (i - 16 * Z.of_nat (S k'))
             with (i - 16 - 16 * Z.of_nat k') by lia.
           apply Hfirst. lia.
      * right. split; [|done]. intros [|k] Hpos.
        -- by rewrite Z.mul_0_r, Z.sub_0_r.
        -- replace (i - 16 * Z.of_nat (S k))
             with (i - 16 - 16 * Z.of_nat k) by lia.
           apply Hnone. lia.
  - right. split; [|lia]. intros k Hpos. lia.
Qed.

(** *** Where the second loop stops *)

Lemma boundary_here_spec (data : bytes) (i : Z) :
  16 <= i -> boundary_here data i = true <-> payload_boundary data i.
Proof.
  intros Hi. unfold boundary_here, payload_boundary.
  rewrite andb_true_iff, !bool_decide_eq_true.
  replace (i - 32) with (i - 16 - 16) by lia.
  rewrite !datablock_erased by lia. done.
Qed.

(** From a position that is a multiple of 16 the second loop stops at
    the first payload boundary, two bytes past the start of its data
    chunk, and otherwise comes down to exactly 0. *)
Lemma find_boundary_spec (data : bytes) (i : Z) :
  0 <= i -> i mod 16 = 0 ->
  (exists k : nat,
      0 < i - 16 * Z.of_nat k
      /\ payload_boundary data (i - 16 * Z.of_nat k)
      /\ (forall k' : nat, (k' < k)%nat ->
            ~ payload_boundary data (i - 16 * Z.of_nat k'))
      /\ find_boundary data i = i - 16 * Z.of_nat k - 16 + 2)
  \/ ((forall k : nat, 0 < i - 16 * Z.of_nat k ->
         ~ payload_boundary data (i - 16 * Z.of_nat k))
      /\ find_boundary data i = 0).
Proof.
  remember (Z.to_nat i) as n eqn:Hn. revert i Hn.
  induction n as [n IH] using lt_wf_ind. intros i Hn Hi Hmod.
  rewrite find_boundary_eq. destruct (0 <? i) eqn:Hpos; [|right; split; lia].
  assert (16 <= i) by (apply Z.mod_divide in Hmod as [q ->]; lia).
  destruct (boundary_here data i) eqn:Hb.
  - left. exists 0%nat. rewrite Z.mul_0_r, Z.sub_0_r.
    split_and!; [lia | by apply boundary_here_spec | lia | done].
  - assert (Hno : ~ payload_boundary data i).
    { intros Hp. apply boundary_here_spec in Hp; [congruence | done]. }
    assert (Hmod' : (i - 16) mod 16 = 0).
    { replace (i - 16) with (i + (-1) * 16) by lia. by rewrite Z.mod_add. }
    destruct (IH (Z.to_nat (i - 16)) ltac:(lia) (i - 16) eq_refl
                ltac:(lia) Hmod')
      as [(k & Hk0 & Hk & Hfirst & ->) | [Hnone ->]].
    + left. exists (S k).
      replace (i - 16 * Z.of_nat (S k)) with (i - 16 - 16 * Z.of_nat k) by lia.
      split_and!; [done | done | | done].
      intros [|k'] Hlt.
      * by rewrite Z.mul_0_r, Z.sub_0_r.
      * replace (i - 16 * Z.of_nat (S k'))
          with (i - 16 - 16 * Z.of_nat k') by lia.
        apply Hfirst. lia.
    + right. split; [|done]. intros [|k] Hk0.
      * by rewrite Z.mul_0_r, Z.sub_0_r.
      * replace (i - 16 * Z.of_nat (S k))
          with (i - 16 - 16 * Z.of_nat k) by lia.
        apply Hnone. lia.
Qed.

(** *** The checksum-chain walk *)

Section Walk.

Context `{env : Env}.

Local Arguments Nat.mul : simpl never.
Local Arguments take : simpl never.
Local Arguments drop : simpl never.

Lemma unit_data_length (payload : bytes) (j k : nat) :
  (34 * k < length payload)%nat -> (j < k)%nat ->
  length (unit_data payload j) = 32%nat.
Proof.
  intros Hk Hj. unfold unit_data. rewrite length_take, length_drop. lia.
Qed.

Lemma unit_data_nonempty (payload : bytes) (k : nat) :
  (34 * k < length payload)%nat -> unit_data payload k <> [].
Proof.
  intros Hk Hnil.
  assert (H : length (unit_data payload k) = 0%nat) by (by rewrite Hnil).
  unfold unit_data in H. rewrite length_take, length_drop in H. lia.
Qed.

(** With enough fuel the loop never reaches its out-of-fuel branch:
    more fuel does not change what it computes. *)
Lemma crc_loop_fuel (name : string) (fuel1 fuel2 : nat)
    (stream block : bytes) (first : bool) (acc : bytes) :
  enough_fuel fuel1 stream block -> enough_fuel fuel2 stream block ->
  crc_loop fuel1 name stream block first acc
  = crc_loop fuel2 name stream block first acc.
Proof.
  revert fuel2 stream block first acc.
  induction fuel1 as [|fuel1 IH]; intros [|fuel2] stream block first acc;
    destruct block as [|b block]; unfold enough_fuel; intros H1 H2;
    try lia; try done.
  cbn [crc_loop].
  destruct (block_crc_check (b :: block) (take 2 stream)); simpl; [|done].
  assert (Hnext : forall fuel, (length stream + 2 <= S fuel)%nat ->
                    enough_fuel fuel (drop 32 (drop 2 stream))
                      (take 32 (drop 2 stream))).
  { intros fuel Hfuel. unfold enough_fuel.
    destruct (take 32 (drop 2 stream)) as [|b' block'] eqn:Hblock; [lia|].
    assert (Hlen : length (take 32 (drop 2 stream)) = S (length block'))
      by (by rewrite Hblock).
    rewrite length_take, length_drop in Hlen.
    rewrite !length_drop. lia. }
  apply IH; by apply Hnext.
Qed.

Lemma crc_walk_enough_fuel (payload : bytes) :
  enough_fuel (S (length payload)) (drop 32 payload) (take 32 payload).
Proof.
  unfold enough_fuel. destruct (take 32 payload) as [|b block] eqn:Hblock;
    [lia|].
  assert (Hlen : length (take 32 payload) = S (length block))
    by (by rewrite Hblock).
  rewrite length_take in Hlen. rewrite length_drop. lia.
Qed.

(** The loop, entered at unit [j] with the earlier data blocks in
    [acc], when unit [k] is the first that fails. *)
Lemma crc_loop_first_failure (name : string) (payload : bytes) (k : nat) :
  (34 * k < length payload)%nat ->
  (forall j, (j < k)%nat -> unit_valid payload j = true) ->
  unit_valid payload k = false ->
  forall (d j fuel : nat) (acc : bytes),
    (j + d = k)%nat -> (d < fuel)%nat ->
    crc_loop fuel name (drop (34 * j + 32) payload) (unit_data payload j)
      (bool_decide (j = 0%nat)) acc
    = if bool_decide (k = 0%nat) then raise (ChecksumMismatch name)
      else mret (acc ++ concat (unit_data payload <$> seq j d)).
Proof.
  intros Hk Hvalid Hfail. induction d as [|d IH]; intros j fuel acc Hj Hfuel.
  - assert (j = k) as -> by lia.
    destruct fuel as [|fuel]; [lia|]. simpl.
    destruct (unit_data payload k) as [|b block] eqn:Hblock;
      [by apply unit_data_nonempty in Hblock|].
    rewrite <- Hblock.
    change (take 2 (drop (34 * k + 32) payload)) with (unit_crc payload k).
    change (block_crc_check (unit_data payload k) (unit_crc payload k))
      with (unit_valid payload k).
    rewrite Hfail. simpl. rewrite app_nil_r. done.
  - destruct fuel as [|fuel]; [lia|]. simpl.
    destruct (unit_data payload j) as [|b block] eqn:Hblock;
      [apply unit_data_nonempty in Hblock; [done | lia]|].
    rewrite <- Hblock.
    change (take 2 (drop (34 * j + 32) payload)) with (unit_crc payload j).
    change (block_crc_check (unit_data payload j) (unit_crc payload j))
      with (unit_valid payload j).
    rewrite Hvalid by lia. simpl.
    rewrite !drop_drop.
    replace (34 * j + 32 + (2 + 32))%nat with (34 * S j + 32)%nat by lia.
    replace (34 * j + 32 + 2)%nat with (34 * S j)%nat by lia.
    change (take 32 (drop (34 * S j) payload)) with (unit_data payload (S j)).
    change false with (bool_decide (S j = 0%nat)) at 1.
    rewrite IH by lia.
    rewrite (bool_decide_eq_false_2 (k = 0%nat)) by lia.
    by rewrite <- app_assoc.
Qed.

(** The walk over a region whose first failing unit is unit [k]. *)
Lemma crc_walk_first_failure (name : string) (payload : bytes) (k : nat) :
  (34 * k < length payload)%nat ->
  (forall j, (j < k)%nat -> unit_valid payload j = true) ->
  unit_valid payload k = false ->
  crc_walk name payload
  = if bool_decide (k = 0%nat) then raise (ChecksumMismatch name)
    else mret (validated_data payload k).
Proof.
  intros Hk Hvalid Hfail. unfold crc_walk, validated_data.
  assert (H := crc_loop_first_failure name payload k Hk Hvalid Hfail
                 k 0%nat (S (length payload)) [] eq_refl ltac:(lia)).
  exact H.
Qed.

End Walk.

(** *** Computations *)

Lemma ret_bind {A B : Type} (a : A) (f : A -> io B) : mret a ≫= f = f a.
Proof. unfold mbind, io_bind. simpl. by destruct (f a). Qed.

Lemma bind_returned {A B : Type} (m : io A) (f : A -> io B) (a : A) :
  result m = Returned a ->
  m ≫= f = (trace m ++ trace (f a), result (f a)).
Proof. destruct m as [tr r]. simpl. intros ->. done. Qed.

Lemma bind_raised {A B : Type} (m : io A) (f : A -> io B) (e : exn) :
  result m = Raised e -> m ≫= f = (trace m, Raised e).
Proof. destruct m as [tr r]. simpl. intros ->. done. Qed.

Lemma trace_bind {A B : Type} (m : io A) (f : A -> io B) :
  trace (m ≫= f)
  = trace m ++ match result m with
               | Returned a => trace (f a)
               | Raised _ => []
               end.
Proof. destruct m as [tr [a|e]]; simpl; [done | by rewrite app_nil_r]. Qed.

(** A computation that returned went through both of its halves. *)
Lemma bind_result_returned {A B : Type} (m : io A) (f : A -> io B) (b : B) :
  result (m ≫= f) = Returned b ->
  exists a, result m = Returned a /\ result (f a) = Returned b.
Proof. destruct m as [tr [a|e]]; simpl; [eauto | done]. Qed.

(** *** Looking a partition up by name *)

Section Lookup.

Context `{env : Env}.

Lemma find_named_name (n : string) (ps : list FlashPartition.t)
    (p : FlashPartition.t) :
  List.find (named n) ps = Some p -> FlashPartition.name p = n.
Proof.
  intros H. apply find_some in H as [_ H]. unfold named in H.
  by apply bool_decide_eq_true in H.
Qed.

Lemma find_named_filter (n : string) (ps : list FlashPartition.t)
    (p : FlashPartition.t) :
  List.find (named n) ps = Some p ->
  exists rest, List.filter (named n) ps = p :: rest.
Proof.
  induction ps as [|q ps IH]; simpl; [done|].
  destruct (named n q); [intros [= ->]; eauto | done].
Qed.

Lemma find_named_None (n : string) (ps : list FlashPartition.t) :
  List.find (named n) ps = None <-> n ∉ FlashPartition.name <$> ps.
Proof.
  induction ps as [|q ps IH]; simpl.
  - split; [intros _; apply not_elem_of_nil | done].
  - unfold named at 1. rewrite not_elem_of_cons, <- IH.
    case_bool_decide as Hq; split; try done.
    + by intros [Hne _].
    + by intros [_ ?].
Qed.

Lemma scan_known (dumpfile : string) (dump : bytes) (n : string)
    (layout : FlashLayout.t) (out : string) (extract : bool)
    (partition : FlashPartition.t) :
  List.find (named n) (FlashLayout.partitions layout) = Some partition ->
  __scan_pattern_find_payload dumpfile dump n layout out extract
  = scan_partition dumpfile dump n partition out extract.
Proof.
  intros Hfind. unfold __scan_pattern_find_payload.
  rewrite bool_decide_eq_true_2.
  - destruct (find_named_filter _ _ _ Hfind) as [rest ->].
    apply (ret_bind partition).
  - apply elem_of_list_to_set.
    destruct (decide (n ∈ FlashPartition.name <$> FlashLayout.partitions layout))
      as [|Hn]; [done|].
    apply find_named_None in Hn. congruence.
Qed.

Lemma scan_unknown (dumpfile : string) (dump : bytes) (n : string)
    (layout : FlashLayout.t) (out : string) (extract : bool) :
  n ∉ FlashPartition.name <$> FlashLayout.partitions layout ->
  __scan_pattern_find_payload dumpfile dump n layout out extract
  = raise (PartitionNotFound n (FlashLayout.name layout)).
Proof.
  intros Hn. unfold __scan_pattern_find_payload.
  rewrite bool_decide_eq_false_2; [done|].
  by rewrite elem_of_list_to_set.
Qed.

End Lookup.

(** *** The decryption helper *)

Lemma b64decode_constant :
  base64.b64decode CODE_PARTITION_COEFFICIENTS_B64
  = Some CODE_PARTITION_COEFFICIENTS.
Proof. vm_compute. reflexivity. Qed.

Lemma coefficients_of_constant :
  coefficients_of CODE_PARTITION_COEFFICIENTS = COEFFICIENTS.
Proof. vm_compute. reflexivity. Qed.

Section Scan.

Context `{env : Env}.

Lemma decrypt_code_partition_eq (partition : FlashPartition.t)
    (payload : bytes) :
  __decrypt_code_partition partition payload
  = ([B64Decode CODE_PARTITION_COEFFICIENTS_B64;
      CipherDecrypt COEFFICIENTS (cipher_pad COEFFICIENTS payload)
        (FlashPartition.mapped_address partition)],
     Returned (cipher_decrypt COEFFICIENTS (cipher_pad COEFFICIENTS payload)
                 (FlashPartition.mapped_address partition))).
Proof.
  unfold __decrypt_code_partition.
  rewrite b64decode_constant, coefficients_of_constant. reflexivity.
Qed.

(** *** The candidate region *)

Lemma candidate_region_trace (dump : bytes) (partition : FlashPartition.t) :
  trace (candidate_region dump partition) = [].
Proof.
  unfold candidate_region. destruct (_ <=? 0); [done|].
  by destruct (py_slice _ 0 _).
Qed.

Lemma candidate_region_no_marker (dump : bytes) (partition : FlashPartition.t) :
  find_end_marker
    (file_read dump (FlashPartition.start_address partition)
       (FlashPartition.size partition))
    (Z.of_N (FlashPartition.size partition)) <= 0 ->
  candidate_region dump partition
  = raise (EndOfPartitionNotFound (FlashPartition.name partition)).
Proof.
  intros H. unfold candidate_region.
  by rewrite (proj2 (Z.leb_le _ _) H).
Qed.

(** *** The scan of a partition, by the way it ends *)

Lemma scan_partition_no_region (dumpfile : string) (dump : bytes)
    (n : string) (partition : FlashPartition.t) (out : string)
    (extract : bool) (e : exn) :
  result (candidate_region dump partition) = Raised e ->
  scan_partition dumpfile dump n partition out extract
  = ([OpenDump dumpfile], Raised e).
Proof.
  intros H. unfold scan_partition.
  rewrite (bind_raised (candidate_region _ _) _ e H).
  by rewrite candidate_region_trace.
Qed.

Lemma scan_partition_walk_raises (dumpfile : string) (dump : bytes)
    (n : string) (partition : FlashPartition.t) (out : string)
    (extract : bool) (payload : bytes) (e : exn) :
  result (candidate_region dump partition) = Returned payload ->
  crc_walk (FlashPartition.name partition) payload = raise e ->
  scan_partition dumpfile dump n partition out extract
  = ([OpenDump dumpfile], Raised e).
Proof.
  intros H Hwalk. unfold scan_partition.
  rewrite (bind_returned (candidate_region _ _) _ payload H).
  rewrite candidate_region_trace, Hwalk. reflexivity.
Qed.

Lemma scan_partition_walk_returns (dumpfile : string) (dump : bytes)
    (n : string) (partition : FlashPartition.t) (out : string)
    (extract : bool) (payload final : bytes) :
  result (candidate_region dump partition) = Returned payload ->
  crc_walk (FlashPartition.name partition) payload = mret final ->
  scan_partition dumpfile dump n partition out extract
  = (OpenDump dumpfile :: scan_outputs dumpfile n out partition extract final,
     Returned final).
Proof.
  intros H Hwalk. unfold scan_partition, scan_outputs.
  rewrite (bind_returned (candidate_region _ _) _ payload H).
  rewrite candidate_region_trace, Hwalk.
  destruct extract; vm_compute; reflexivity.
Qed.

End Scan.

(** *** The carving loop *)

Lemma bind_assoc {A B C : Type} (m : io A) (f : A -> io B) (g : B -> io C) :
  (m ≫= f) ≫= g = m ≫= (fun a => f a ≫= g).
Proof.
  destruct m as [tr [a|e]]; [|done].
  unfold mbind, io_bind. simpl.
  destruct (f a) as [tr' [b|e]]; simpl; [|done].
  by rewrite app_assoc.
Qed.

Lemma Forall_trace_bind {A B : Type} (P : event -> Prop) (m : io A)
    (f : A -> io B) :
  Forall P (trace m) ->
  (forall a, result m = Returned a -> Forall P (trace (f a))) ->
  Forall P (trace (m ≫= f)).
Proof.
  intros Hm Hf. rewrite trace_bind. apply Forall_app. split; [done|].
  destruct (result m) as [a|e]; [by apply Hf | constructor].
Qed.

Lemma bind_ext {A B : Type} (m : io A) (f g : A -> io B) :
  (forall a, f a = g a) -> m ≫= f = m ≫= g.
Proof.
  intros H. destruct m as [tr [a|e]]; [|done].
  unfold mbind, io_bind. simpl. by rewrite H.
Qed.

Section Carve.

Context `{env : Env}.

Lemma carve_loop_app (dumpfile : string) (dump : bytes)
    (layout : option FlashLayout.t) (out : string) (extract with_rbl : bool)
    (before after : list N) (containers : list Container.t) :
  carve_loop dumpfile dump layout out extract with_rbl containers
    (before ++ after)
  = carve_loop dumpfile dump layout out extract with_rbl containers before
    ≫= fun containers' =>
         carve_loop dumpfile dump layout out extract with_rbl containers' after.
Proof.
  revert containers. induction before as [|idx before IH]; intros containers.
  - symmetry. apply (ret_bind containers).
  - cbn [carve_loop app]. rewrite bind_assoc. apply bind_ext. intros cs.
    apply IH.
Qed.

(** A round on a header that does not parse: two console lines, and
    the list of containers is as it was. *)
Lemma carve_at_parse_error (dumpfile : string) (dump : bytes)
    (layout : option FlashLayout.t) (out : string) (extract with_rbl : bool)
    (containers : list Container.t) (idx : N) (reason : string) :
  from_bytestream dump idx layout = ParseError reason ->
  carve_at dumpfile dump layout out extract with_rbl containers idx
  = ([Print (MsgOffset idx); Print (MsgFailedToParse reason)],
     Returned containers).
Proof. intros H. unfold carve_at. rewrite H. reflexivity. Qed.

End Carve.

(** *** The entry point *)

Section Orchestration.

Context `{env : Env}.

Lemma crc_loop_trace (fuel : nat) (name : string) (stream block : bytes)
    (first : bool) (acc : bytes) :
  trace (crc_loop fuel name stream block first acc) = [].
Proof.
  revert stream block first acc.
  induction fuel as [|fuel IH]; intros stream block first acc; [done|].
  cbn [crc_loop]. destruct block as [|b block]; [done|].
  destruct (negb _); [by destruct first | apply IH].
Qed.

(** A scan of a partition either stops with an exception right after
    opening the dump, or returns the payload it recovered after the
    outputs of [scan_outputs]. *)
Lemma scan_partition_cases (dumpfile : string) (dump : bytes) (n : string)
    (partition : FlashPartition.t) (out : string) (extract : bool) :
  (exists e, scan_partition dumpfile dump n partition out extract
             = ([OpenDump dumpfile], Raised e))
  \/ (exists final,
        scan_partition dumpfile dump n partition out extract
        = (OpenDump dumpfile
             :: scan_outputs dumpfile n out partition extract final,
           Returned final)).
Proof.
  destruct (result (candidate_region dump partition)) as [payload|e] eqn:Hr.
  - destruct (crc_walk (FlashPartition.name partition) payload)
      as [tr [final|e]] eqn:Hw.
    + right. exists final. apply scan_partition_walk_returns with payload;
        [done|].
      pose proof (crc_loop_trace (S (length payload))
                    (FlashPartition.name partition) (drop 32 payload)
                    (take 32 payload) true []) as Htr.
      fold (crc_walk (FlashPartition.name partition) payload) in Htr.
      rewrite Hw in Htr. simpl in Htr. by subst tr.
    + left. exists e. apply scan_partition_walk_raises with payload; [done|].
      pose proof (crc_loop_trace (S (length payload))
                    (FlashPartition.name partition) (drop 32 payload)
                    (take 32 payload) true []) as Htr.
      fold (crc_walk (FlashPartition.name partition) payload) in Htr.
      rewrite Hw in Htr. simpl in Htr. by subst tr.
  - left. exists e. by apply scan_partition_no_region.
Qed.

Lemma scan_cases (dumpfile : string) (dump : bytes) (n : string)
    (layout : FlashLayout.t) (out : string) (extract : bool) :
  (exists e, __scan_pattern_find_payload dumpfile dump n layout out extract
             = ([], Raised e))
  \/ (exists e, __scan_pattern_find_payload dumpfile dump n layout out extract
                = ([OpenDump dumpfile], Raised e))
  \/ (exists partition final,
        List.find (named n) (FlashLayout.partitions layout) = Some partition
        /\ __scan_pattern_find_payload dumpfile dump n layout out extract
           = (OpenDump dumpfile
                :: scan_outputs dumpfile n out partition extract final,
              Returned final)).
Proof.
  destruct (List.find (named n) (FlashLayout.partitions layout))
    as [partition|] eqn:Hfind.
  - rewrite (scan_known _ _ _ _ _ _ _ Hfind).
    destruct (scan_partition_cases dumpfile dump n partition out extract)
      as [[e He] | [final Hfinal]]; [right; left; eauto|].
    right. right. exists partition, final. done.
  - left. eexists. apply scan_unknown. by apply find_named_None.
Qed.

(** *** Which names the run hands to the fallback *)

Lemma routed_app (tr1 tr2 : list event) :
  routed_to_fallback (tr1 ++ tr2)
  = routed_to_fallback tr1 ++ routed_to_fallback tr2.
Proof. apply omap_app. Qed.


Lemma scan_outputs_routed (dumpfile n out : string)
    (partition : FlashPartition.t) (extract : bool) (final : bytes) :
  routed_to_fallback (scan_outputs dumpfile n out partition extract final) = [].
Proof. by destruct extract. Qed.

Lemma scan_routed (dumpfile : string) (dump : bytes) (n : string)
    (layout : FlashLayout.t) (out : string) (extract : bool) :
  routed_to_fallback
    (trace (__scan_pattern_find_payload dumpfile dump n layout out extract))
  = [].
Proof.
  destruct (scan_cases dumpfile dump n layout out extract)
    as [[e ->] | [[e ->] | (p & final & _ & ->)]]; try done.
  unfold trace. simpl. apply scan_outputs_routed.
Qed.

(** The rounds of the fallback loop: the names it reaches are the
    first names of its list, and all of them when the loop returns. *)
Lemma fallback_loop_routed (dumpfile : string) (dump : bytes)
    (layout : FlashLayout.t) (out : string) (extract : bool)
    (todo : list string) :
  routed_to_fallback
    (trace (fallback_loop dumpfile dump layout out extract todo))
    `prefix_of` todo
  /\ (result (fallback_loop dumpfile dump layout out extract todo)
      = Returned tt ->
      routed_to_fallback
        (trace (fallback_loop dumpfile dump layout out extract todo))
      = todo).
Proof.
  induction todo as [|n todo [IHp IHr]]; [split; [done | done]|].
  cbn [fallback_loop].
  set (scan := __scan_pattern_find_payload dumpfile dump n layout out extract).
  set (loop := fallback_loop dumpfile dump layout out extract todo) in *.
  pose proof (scan_routed dumpfile dump n layout out extract) as Hscan.
  fold scan in Hscan.
  destruct scan as [tr [final|e]]; unfold mbind, io_bind, trace, result in *;
    simpl in *.
  - rewrite routed_app, Hscan. simpl. split.
    + by apply prefix_cons.
    + intros Hr. f_equal. by apply IHr.
  - rewrite Hscan. split; [|done]. apply prefix_cons, prefix_nil.
Qed.

End Orchestration.

Section FallbackRounds.

Context `{env : Env}.



End FallbackRounds.

Section CarveRuns.

Context `{env : Env}.

(** The containers that a returning loop has collected are the
    containers that parsed, in the order of their offsets. *)
Lemma carve_at_result (dumpfile : string) (dump : bytes)
    (layout : option FlashLayout.t) (out : string) (extract with_rbl : bool)
    (containers containers' : list Container.t) (idx : N) :
  result (carve_at dumpfile dump layout out extract with_rbl containers idx)
  = Returned containers' ->
  containers' = containers ++ option_list (parsed_at dump layout idx).
Proof.
  unfold carve_at, parsed_at.
  destruct (from_bytestream dump idx layout) as [reason|c]; simpl.
  - intros [= <-]. by rewrite app_nil_r.
  - destruct (carve_container _ _ _ _ _ _) as [tr [[]|e]]; simpl; [|done].
    by intros [= <-].
Qed.

Lemma carve_loop_result (dumpfile : string) (dump : bytes)
    (layout : option FlashLayout.t) (out : string) (extract with_rbl : bool)
    (indices : list N) (containers containers' : list Container.t) :
  result (carve_loop dumpfile dump layout out extract with_rbl containers
            indices) = Returned containers' ->
  containers' = containers ++ omap (parsed_at dump layout) indices.
Proof.
  revert containers. induction indices as [|idx indices IH];
    intros containers; cbn [carve_loop].
  - intros [= <-]. by rewrite app_nil_r.
  - intros H. apply bind_result_returned in H as (cs & Hat & Hloop).
    apply carve_at_result in Hat as ->. apply IH in Hloop as ->.
    rewrite <- app_assoc. f_equal. simpl.
    by destruct (parsed_at dump layout idx).
Qed.






(** Without a layout the carving loop stops at the first container with
    a payload, where it asks for the partitions of the layout; up to
    there it has only printed. *)
Lemma carve_container_no_layout (dumpfile out : string)
    (extract with_rbl : bool) (container : Container.t) :
  Forall preliminary
    (trace (carve_container dumpfile None out extract with_rbl container))
  /\ (result (carve_container dumpfile None out extract with_rbl container)
      = Returned tt
      \/ result (carve_container dumpfile None out extract with_rbl container)
         = Raised AttributeError).
Proof.
  unfold carve_container.
  destruct (Container.payload container); cbn;
    (split; [by repeat constructor | auto]).
Qed.

Lemma carve_loop_no_layout (dumpfile : string) (dump : bytes)
    (out : string) (extract with_rbl : bool) (indices : list N)
    (containers : list Container.t) :
  Forall preliminary
    (trace (carve_loop dumpfile dump None out extract with_rbl containers
              indices))
  /\ ((exists cs, result (carve_loop dumpfile dump None out extract with_rbl
                           containers indices) = Returned cs)
      \/ result (carve_loop dumpfile dump None out extract with_rbl
                   containers indices) = Raised AttributeError).
Proof.
  revert containers. induction indices as [|idx indices IH];
    intros containers; cbn [carve_loop]; [split; [constructor | eauto]|].
  unfold carve_at.
  destruct (from_bytestream dump idx None) as [reason|c].
  - destruct (IH containers) as [Htr Hres]. simpl.
    split; [by repeat (constructor; [done|]) | done].
  - destruct (IH (containers ++ [c])) as [Htr Hres].
    unfold carve_container. simpl. destruct (Container.payload c); simpl.
    + split; [by repeat constructor | by right].
    + split; [by repeat (constructor; [done|]) | done].
Qed.

End CarveRuns.

Section EntryPoint.

Context `{env : Env}.


(** The entry point settles [extract] and the output directory, which
    at most prints a notice and makes the directory, and then runs
    [dissect_main]. *)
Lemma dissect_shape (args : Args.t) (dump : bytes) :
  exists (pre : list event) (extract : bool) (out : string),
    Forall preliminary pre
    /\ dissect_dump_file args dump
       = (pre ++ trace (dissect_main args dump extract out),
          result (dissect_main args dump extract out)).
Proof.
  unfold dissect_dump_file.
  set (out := if bool_decide (Args.output_dir args = "") then getcwd
              else Args.output_dir args).
  destruct (bool_decide (out ≠ getcwd) && negb (Args.extract args)) eqn:Hc.
  - exists [Print MsgAssumeExtract; EnsureDir out], true, out.
    split; [by repeat constructor | reflexivity].
  - destruct (Args.extract args) eqn:He.
    + exists [EnsureDir out], true, out.
      split; [by repeat constructor | reflexivity].
    + exists [], false, out. split; [constructor | reflexivity].
Qed.

Lemma carve_no_layout (dumpfile : string) (dump : bytes) (out : string)
    (extract with_rbl : bool) :
  Forall preliminary
    (trace (__carve_and_write_rbl_containers dumpfile dump None out extract
              with_rbl))
  /\ ((exists cs, result (__carve_and_write_rbl_containers dumpfile dump None
                           out extract with_rbl) = Returned cs)
      \/ result (__carve_and_write_rbl_containers dumpfile dump None out
                   extract with_rbl) = Raised AttributeError).
Proof.
  unfold __carve_and_write_rbl_containers.
  destruct (find_rbl_containers_indices dump) as [|idx indices].
  - split; [by repeat constructor | left; by eexists].
  - destruct (carve_loop_no_layout dumpfile dump out extract with_rbl
                (idx :: indices) []) as [Htr Hres].
    simpl. split; [by repeat (constructor; [done|]) | done].
Qed.

(** The entry point, with what it settles on spelled out. *)
Lemma dissect_explicit (args : Args.t) (dump : bytes) :
  dissect_dump_file args dump
  = ((if negb (Args.extract args)
         && bool_decide (output_directory_of args ≠ getcwd)
      then [Print MsgAssumeExtract] else [])
     ++ (if extraction_on args then [EnsureDir (output_directory_of args)]
         else [])
     ++ trace (dissect_main args dump (extraction_on args)
                 (output_directory_of args)),
     result (dissect_main args dump (extraction_on args)
               (output_directory_of args))).
Proof.
  unfold dissect_dump_file, extraction_on.
  fold (output_directory_of args).
  destruct (Args.extract args) eqn:He;
    destruct (bool_decide (output_directory_of args ≠ getcwd)) eqn:Hd;
    reflexivity.
Qed.

End EntryPoint.

(** ** The pattern-scan extractor *)

Section ScanTheorems.

Context `{env : Env}.

(** C3. The search for the end-of-data marker visits the 16-byte chunks
    that end at [size], [size - 16], ... from the end of the partition
    window and stops at the first one that is entirely 0xFF, from where
    the extraction goes on to a candidate region; when none of the
    chunks it visits is entirely 0xFF, the extraction raises
    [EndOfPartitionNotFound] right after opening the dump: nothing is
    printed or written and no payload is returned. *)
Theorem end_marker_search (dumpfile : string) (dump : bytes) (n : string)
    (layout : FlashLayout.t) (out : string) (extract : bool)
    (partition : FlashPartition.t) :
  List.find (named n) (FlashLayout.partitions layout) = Some partition ->
  let data := file_read dump (FlashPartition.start_address partition)
                (FlashPartition.size partition) in
  let size := Z.of_N (FlashPartition.size partition) in
  (exists k : nat,
      0 < size - 16 * Z.of_nat k
      /\ erased_chunk data (size - 16 * Z.of_nat k)
      /\ (forall k' : nat, (k' < k)%nat ->
            ~ erased_chunk data (size - 16 * Z.of_nat k'))
      /\ find_end_marker data size = size - 16 * Z.of_nat k
      /\ exists payload,
           candidate_region dump partition = ([], Returned payload))
  \/ ((forall k : nat, 0 < size - 16 * Z.of_nat k ->
         ~ erased_chunk data (size - 16 * Z.of_nat k))
      /\ __scan_pattern_find_payload dumpfile dump n layout out extract
         = ([OpenDump dumpfile], Raised (EndOfPartitionNotFound n))).
Proof.
  intros Hfind data size.
  destruct (find_end_marker_spec data size)
    as [(k & Hpos & Hk & Hfirst & Hi) | [Hnone Hle]]; [left | right].
  { exists k. split_and!; try done.
    unfold candidate_region. fold data size. rewrite Hi.
    rewrite (proj2 (Z.leb_gt _ _) Hpos).
    destruct (py_slice data 0 _); eauto. }
  split; [done|].
  rewrite (scan_known _ _ _ _ _ _ _ Hfind).
  rewrite <- (find_named_name _ _ _ Hfind).
  apply scan_partition_no_region.
  by rewrite candidate_region_no_marker.
Qed.

(** C7. A call of the pattern-scan extractor with a partition name that
    the layout does not have raises [PartitionNotFound] before anything
    else happens: the dump is not opened and nothing is printed or
    written, whatever the dump holds. The exception is not handled by
    the loop of the entry point either: a round for such a name ends
    the loop, and with it the dissection, with that exception. *)
Theorem unknown_partition_rejected (dumpfile : string) (dump : bytes)
    (n : string) (layout : FlashLayout.t) (out : string) (extract : bool)
    (rest : list string) :
  n ∉ FlashPartition.name <$> FlashLayout.partitions layout ->
  __scan_pattern_find_payload dumpfile dump n layout out extract
  = ([], Raised (PartitionNotFound n (FlashLayout.name layout)))
  /\ fallback_loop dumpfile dump layout out extract (n :: rest)
     = ([Print (MsgMissing n)],
        Raised (PartitionNotFound n (FlashLayout.name layout))).
Proof.
  intros Hn. split.
  - by apply scan_unknown.
  - cbn [fallback_loop]. rewrite (scan_unknown _ _ _ _ _ _ Hn). reflexivity.
Qed.

(** C1. The checksum-chain walk over a candidate payload region, when
    unit [k] is the first unit that fails validation: if it is the
    first unit of the region, the extraction raises [ChecksumMismatch]
    for the partition; if it is a later unit, the extraction returns
    the data blocks of the units before it, each 32 bytes long, in
    order and without their checksum bytes. *)
Theorem checksum_chain_walk (dumpfile : string) (dump : bytes) (n : string)
    (layout : FlashLayout.t) (out : string) (extract : bool)
    (partition : FlashPartition.t) (payload : bytes) (k : nat) :
  List.find (named n) (FlashLayout.partitions layout) = Some partition ->
  result (candidate_region dump partition) = Returned payload ->
  (34 * k < length payload)%nat ->
  (forall j, (j < k)%nat -> unit_valid payload j = true) ->
  unit_valid payload k = false ->
  let run := __scan_pattern_find_payload dumpfile dump n layout out extract in
  match k with
  | O => run = ([OpenDump dumpfile], Raised (ChecksumMismatch n))
  | S _ =>
      result run = Returned (validated_data payload k)
      /\ Forall (fun block => length block = 32%nat)
           (unit_data payload <$> seq 0 k)
  end.
Proof.
  intros Hfind Hregion Hk Hvalid Hfail run. subst run.
  rewrite (scan_known _ _ _ _ _ _ _ Hfind).
  pose proof (crc_walk_first_failure (FlashPartition.name partition)
                payload k Hk Hvalid Hfail) as Hwalk.
  rewrite (find_named_name _ _ _ Hfind) in Hwalk.
  destruct k as [|k].
  - rewrite <- (find_named_name _ _ _ Hfind) in Hwalk |- *.
    by apply scan_partition_walk_raises with payload.
  - split.
    + rewrite <- (find_named_name _ _ _ Hfind) in Hwalk.
      by rewrite (scan_partition_walk_returns _ _ _ _ _ _ _ _ Hregion Hwalk).
    + apply Forall_fmap, Forall_forall. intros j Hj.
      apply elem_of_seq in Hj. simpl. by apply unit_data_length with (S k); [|lia].
Qed.

End ScanTheorems.

Section BoundaryTheorem.

Context `{env : Env}.

Lemma erased_chunk_bounds (data : bytes) (i : Z) :
  erased_chunk data i -> 16 <= i <= Z.of_nat (length data).
Proof.
  intros [Hi H].
  assert (Hlen : length (take 16 (drop (Z.to_nat (i - 16)) data)) = 16%nat)
    by (by rewrite H).
  rewrite length_take, length_drop in Hlen. lia.
Qed.

Lemma take_nonempty {A : Type} (l : list A) (n : nat) :
  (0 < n)%nat -> (0 < length l)%nat -> take n l <> [].
Proof.
  intros Hn Hl H.
  assert (Hlen : length (take n l) = 0%nat) by (by rewrite H).
  rewrite length_take in Hlen. lia.
Qed.

Lemma candidate_region_marker (dump : bytes) (partition : FlashPartition.t) :
  let data := file_read dump (FlashPartition.start_address partition)
                (FlashPartition.size partition) in
  let i0 := find_end_marker data (Z.of_N (FlashPartition.size partition)) in
  0 < i0 ->
  candidate_region dump partition
  = match py_slice data 0 (find_boundary data i0) with
    | [] => mret data
    | _ :: _ => mret (py_slice data 0 (find_boundary data i0))
    end.
Proof.
  intros data i0 Hpos. unfold candidate_region. fold data. fold i0.
  by rewrite (proj2 (Z.leb_gt _ _) Hpos).
Qed.

(** C2, amended. For a partition window whose size is a multiple of 16,
    once the end-of-data marker has been found: going on backward from
    the marker in 16-byte chunks, the candidate payload region ends at
    the first chunk that is not all 0xFF while the chunk before it, at
    lower addresses, is all 0xFF, and it is the window up to two bytes
    past the start of that chunk; if no chunk on the way is such a
    boundary, [data[:i]] is empty and the whole partition window is the
    candidate payload region. *)
Theorem boundary_location (dump : bytes) (partition : FlashPartition.t) :
  Z.of_N (FlashPartition.size partition) mod 16 = 0 ->
  0 < find_end_marker
        (file_read dump (FlashPartition.start_address partition)
           (FlashPartition.size partition))
        (Z.of_N (FlashPartition.size partition)) ->
  boundary_located dump partition.
Proof.
  intros Hmod Hpos. unfold boundary_located.
  set (data := file_read dump _ _) in *.
  set (size := Z.of_N _) in *.
  set (i0 := find_end_marker data size) in *.
  assert (Hi0 : i0 mod 16 = 0).
  { destruct (find_end_marker_spec data size)
      as [(k & _ & _ & _ & Hk) | [_ Hle]]; [|fold i0 in Hle; lia].
    fold i0 in Hk. rewrite Hk.
    replace (size - 16 * Z.of_nat k) with (size + (- Z.of_nat k) * 16) by lia.
    by rewrite Z.mod_add. }
  pose proof (candidate_region_marker dump partition Hpos) as Hregion.
  fold data size i0 in Hregion.
  destruct (find_boundary_spec data i0 ltac:(lia) Hi0)
    as [(k & Hk0 & Hk & Hfirst & Hi) | [Hnone Hi]].
  - left. exists k. split_and!; [done | done | done |].
    rewrite Hregion, Hi.
    destruct Hk as [_ Hprev]. apply erased_chunk_bounds in Hprev.
    rewrite py_slice_prefix by lia.
    destruct (take _ data) as [|b l] eqn:Htake; [|done].
    apply take_nonempty in Htake; [done | lia | lia].
  - right. split; [done|].
    rewrite Hregion, Hi, py_slice_prefix by lia. reflexivity.
Qed.

End BoundaryTheorem.

(** ** The carving loop and the decryption helper *)

Section CarveTheorems.

Context `{env : Env}.

(** C8. When the header at a located offset does not parse, the round
    for that offset prints the offset and the reason of the failure,
    raises nothing and leaves the collected containers as they were;
    the loop then goes on with the offsets that remain, exactly as it
    would have without that offset. *)
Theorem parse_error_is_local (dumpfile : string) (dump : bytes)
    (layout : option FlashLayout.t) (out : string) (extract with_rbl : bool)
    (containers : list Container.t) (before after : list N) (idx : N)
    (reason : string) :
  from_bytestream dump idx layout = ParseError reason ->
  carve_at dumpfile dump layout out extract with_rbl containers idx
  = ([Print (MsgOffset idx); Print (MsgFailedToParse reason)],
     Returned containers)
  /\ carve_loop dumpfile dump layout out extract with_rbl containers
       (before ++ idx :: after)
     = (carve_loop dumpfile dump layout out extract with_rbl containers before
        ≫= fun containers' =>
             emit (Print (MsgOffset idx));;
             emit (Print (MsgFailedToParse reason));;
             carve_loop dumpfile dump layout out extract with_rbl
               containers' after).
Proof.
  intros Hparse. split; [by apply carve_at_parse_error|].
  rewrite carve_loop_app. apply bind_ext. intros cs.
  cbn [carve_loop]. rewrite (carve_at_parse_error _ _ _ _ _ _ _ _ _ Hparse).
  unfold mbind, io_bind. simpl. by destruct (carve_loop _ _ _ _ _ _ _ _).
Qed.

(** C9, amended. When extraction is enabled and a container with a
    payload carries a header name that no partition of the layout has,
    the carving loop raises nothing: it keeps the first partition of
    the layout, writes the container under the container's own name,
    and writes, under that name too, the payload decrypted with the
    mapped address of that first partition. *)
Theorem unmatched_container_uses_first_partition (dumpfile : string)
    (layout : FlashLayout.t) (first : FlashPartition.t)
    (rest : list FlashPartition.t) (out : string) (with_rbl : bool)
    (container : Container.t) (payload : bytes) :
  FlashLayout.partitions layout = first :: rest ->
  Container.payload container = Some payload ->
  Header.name (Container.header container)
    ∉ FlashPartition.name <$> FlashLayout.partitions layout ->
  carve_container dumpfile (Some layout) out true with_rbl container
  = (container_outputs dumpfile out with_rbl container payload first,
     Returned tt).
Proof.
  intros Hparts Hpayload Hname. apply find_named_None in Hname.
  unfold carve_container, layout_partitions, container_outputs.
  rewrite Hpayload. rewrite Hparts in Hname |- *.
  cbn -[List.find __decrypt_code_partition
        __generate_payload_output_file_path].
  rewrite Hname, decrypt_code_partition_eq. reflexivity.
Qed.

(** C6, amended. The coefficient set is the four 32-bit unsigned
    integers spelled, big-endian, by the four consecutive 4-byte groups
    of the 16 bytes that the embedded constant decodes to. The
    decryption routine decodes the constant anew in every call, once
    per call, and hands the same four coefficients to the cipher every
    time. *)
Theorem coefficient_set (partition : FlashPartition.t) (payload : bytes) :
  base64.b64decode CODE_PARTITION_COEFFICIENTS_B64
  = Some CODE_PARTITION_COEFFICIENTS
  /\ length CODE_PARTITION_COEFFICIENTS = 16%nat
  /\ coefficients_of CODE_PARTITION_COEFFICIENTS = COEFFICIENTS
  /\ COEFFICIENTS
     = (fun g => int_from_bytes_big
                   (take 4 (drop (4 * g) CODE_PARTITION_COEFFICIENTS)))
         <$> [0; 1; 2; 3]%nat
  /\ Forall (fun c => 0 <= c < 2 ^ 32) COEFFICIENTS
  /\ __decrypt_code_partition partition payload
     = ([B64Decode CODE_PARTITION_COEFFICIENTS_B64;
         CipherDecrypt COEFFICIENTS (cipher_pad COEFFICIENTS payload)
           (FlashPartition.mapped_address partition)],
        Returned (cipher_decrypt COEFFICIENTS
                    (cipher_pad COEFFICIENTS payload)
                    (FlashPartition.mapped_address partition))).
Proof.
  split_and!.
  - apply b64decode_constant.
  - reflexivity.
  - apply coefficients_of_constant.
  - vm_compute. reflexivity.
  - repeat constructor; vm_compute; congruence.
  - apply decrypt_code_partition_eq.
Qed.

End CarveTheorems.

(** ** The entry point *)

Section EntryTheorems.

Context `{env : Env}.

(** C10. When the layout registry has no layout of the requested name,
    the entry point goes on with [None] for the layout and ends with an
    [AttributeError], raised where the partitions of the layout are
    first asked for: in the carving loop at the first container that
    has a payload, else right after the carving loop. Nothing reports
    the unknown name; up to the exception the run has only printed
    lines of the carving loop, made the output directory and opened the
    dump. *)
Theorem unknown_layout (args : Args.t) (dump : bytes) :
  FLASH_LAYOUTS !! Args.layout args = None ->
  result (dissect_dump_file args dump) = Raised AttributeError
  /\ Forall preliminary (trace (dissect_dump_file args dump)).
Proof.
  intros Hlayout.
  destruct (dissect_shape args dump) as (pre & extract & out & Hpre & ->).
  unfold dissect_main. rewrite Hlayout.
  destruct (carve_no_layout (Args.file args) dump out extract (Args.rbl args))
    as [Htr Hres].
  destruct (__carve_and_write_rbl_containers _ _ _ _ _ _) as [tr r].
  unfold trace, result in *. simpl in *.
  destruct Hres as [[cs ->] | ->]; simpl;
    (split; [done|]); apply Forall_app; split; try done.
  by rewrite app_nil_r.
Qed.


End EntryTheorems.

(** ** The cipher *)

Section CipherTheorem.

Context `{env : Env}.

Lemma selected_partition_in (n : string) (first : FlashPartition.t)
    (rest : list FlashPartition.t) :
  default first (List.find (named n) (first :: rest)) ∈ first :: rest.
Proof.
  destruct (List.find (named n) (first :: rest)) as [p|] eqn:Hfind; simpl.
  - apply find_some in Hfind as [Hin _]. by apply list_elem_of_In.
  - apply list_elem_of_here.
Qed.

(** The round of the carving loop for a container with a payload, on a
    layout that has partitions. *)
Lemma carve_container_returns (dumpfile : string) (layout : FlashLayout.t)
    (first : FlashPartition.t) (rest : list FlashPartition.t) (out : string)
    (extract with_rbl : bool) (container : Container.t) (payload : bytes) :
  FlashLayout.partitions layout = first :: rest ->
  Container.payload container = Some payload ->
  carve_container dumpfile (Some layout) out extract with_rbl container
  = (if extract then
       container_outputs dumpfile out with_rbl container payload
         (default first
            (List.find (named (Header.name (Container.header container)))
               (first :: rest)))
     else [Print (MsgContainer (Header.name (Container.header container))
                    (Header.algo (Container.header container))
                    (length payload))],
     Returned tt).
Proof.
  intros Hparts Hpayload.
  unfold carve_container, layout_partitions, container_outputs.
  rewrite Hpayload, Hparts. destruct extract; [|reflexivity].
  cbn -[List.find __decrypt_code_partition
        __generate_payload_output_file_path].
  rewrite decrypt_code_partition_eq. reflexivity.
Qed.

(** C5, amended. The program has no notion of a code-type partition:
    for every payload it recovers, from a container or by the pattern
    scan, and whatever partition the payload belongs to, it runs the
    cipher on the payload, with the fixed coefficients and the mapped
    address of the partition it selected, if and only if extraction is
    enabled. *)
Theorem cipher_runs_for_every_payload (dumpfile : string) (dump : bytes)
    (n : string) (layout : FlashLayout.t) (out : string)
    (extract with_rbl : bool) (partition : FlashPartition.t) (final : bytes)
    (container : Container.t) (payload : bytes) :
  (List.find (named n) (FlashLayout.partitions layout) = Some partition ->
   result (__scan_pattern_find_payload dumpfile dump n layout out extract)
   = Returned final ->
   CipherDecrypt COEFFICIENTS (cipher_pad COEFFICIENTS final)
     (FlashPartition.mapped_address partition)
     ∈ trace (__scan_pattern_find_payload dumpfile dump n layout out extract)
   <-> extract = true)
  /\ (Container.payload container = Some payload ->
      result (carve_container dumpfile (Some layout) out extract with_rbl
                container) = Returned tt ->
      (exists selected,
          selected ∈ FlashLayout.partitions layout
          /\ CipherDecrypt COEFFICIENTS (cipher_pad COEFFICIENTS payload)
               (FlashPartition.mapped_address selected)
               ∈ trace (carve_container dumpfile (Some layout) out extract
                          with_rbl container))
      <-> extract = true).
Proof.
  split.
  - intros Hfind Hres. rewrite (scan_known _ _ _ _ _ _ _ Hfind) in Hres |- *.
    destruct (scan_partition_cases dumpfile dump n partition out extract)
      as [[e He] | [final' Hfinal]]; rewrite ?He, ?Hfinal in Hres |- *;
      [done|].
    injection Hres as ->. unfold trace, scan_outputs. simpl.
    destruct extract; split; try done.
    + intros _. do 6 apply list_elem_of_further. apply list_elem_of_here.
    + intros H. apply list_elem_of_In in H. simpl in H.
      destruct H as [H|[H|[]]]; discriminate.
  - intros Hpayload Hres.
    destruct (FlashLayout.partitions layout) as [|first rest] eqn:Hparts.
    + unfold carve_container, layout_partitions in Hres.
      rewrite Hpayload, Hparts in Hres. discriminate.
    + rewrite (carve_container_returns _ _ _ _ _ _ _ _ _ Hparts Hpayload).
      unfold trace. simpl. destruct extract; split; try done.
      * intros _. eexists. split; [apply selected_partition_in|].
        unfold container_outputs.
        do 5 apply list_elem_of_further. apply list_elem_of_here.
      * intros (selected & _ & H). apply list_elem_of_In in H. simpl in H.
        destruct H as [H|[]]; discriminate.
Qed.

End CipherTheorem.

(** ** The statements at work in the small world *)

(** The search for the end marker in the [boot] window of the demo dump. *)
Lemma end_marker_search_witness :
  List.find (named "boot") (FlashLayout.partitions Demo.layout) = Some Demo.boot
  /\ (let data := file_read Demo.dump 0 96 in
     (exists k : nat,
         0 < 96 - 16 * Z.of_nat k
         /\ erased_chunk data (96 - 16 * Z.of_nat k)
         /\ (forall k' : nat, (k' < k)%nat ->
               ~ erased_chunk data (96 - 16 * Z.of_nat k'))
         /\ find_end_marker data 96 = 96 - 16 * Z.of_nat k
         /\ exists payload,
              candidate_region Demo.dump Demo.boot = ([], Returned payload))
     \/ ((forall k : nat, 0 < 96 - 16 * Z.of_nat k ->
            ~ erased_chunk data (96 - 16 * Z.of_nat k))
         /\ __scan_pattern_find_payload (env := Demo.world)
              "dump.bin" Demo.dump "boot" Demo.layout "/work" true
            = ([OpenDump "dump.bin"], Raised (EndOfPartitionNotFound "boot")))).
Proof.
  split; [reflexivity|].
  exact (end_marker_search (env := Demo.world)
           "dump.bin" Demo.dump "boot" Demo.layout "/work" true Demo.boot
           eq_refl).
Defined.

(** The demo layout has no partition called [ghost]. *)
Lemma unknown_partition_rejected_witness :
  ("ghost" ∉ FlashPartition.name <$> FlashLayout.partitions Demo.layout)
  /\ __scan_pattern_find_payload (env := Demo.world)
       "dump.bin" Demo.dump "ghost" Demo.layout "/work" true
     = ([], Raised (PartitionNotFound "ghost" "demo"))
  /\ fallback_loop (env := Demo.world)
       "dump.bin" Demo.dump Demo.layout "/work" true ["ghost"; "app"]
     = ([Print (MsgMissing "ghost")],
        Raised (PartitionNotFound "ghost" "demo")).
Proof.
  assert (H : "ghost" ∉ (FlashPartition.name <$> FlashLayout.partitions Demo.layout))
    by compute_done.
  split; [exact H|].
  exact (unknown_partition_rejected (env := Demo.world)
           "dump.bin" Demo.dump "ghost" Demo.layout "/work" true ["app"] H).
Defined.

(** The walk over the [boot] window: unit 0 is valid and unit 1, made of
    erased bytes, is the first to fail. *)
Lemma checksum_chain_walk_witness :
  List.find (named "boot") (FlashLayout.partitions Demo.layout) = Some Demo.boot
  /\ result (candidate_region Demo.dump Demo.boot) = Returned Demo.boot_window
  /\ (34 * 1 < length Demo.boot_window)%nat
  /\ (forall j, (j < 1)%nat ->
        unit_valid (env := Demo.world) Demo.boot_window j = true)
  /\ unit_valid (env := Demo.world) Demo.boot_window 1 = false
  /\ result (__scan_pattern_find_payload (env := Demo.world)
               "dump.bin" Demo.dump "boot" Demo.layout "/work" true)
     = Returned (validated_data Demo.boot_window 1)
  /\ Forall (fun block => length block = 32%nat)
       (unit_data Demo.boot_window <$> seq 0 1).
Proof.
  assert (H1 : result (candidate_region Demo.dump Demo.boot)
               = Returned Demo.boot_window) by (vm_compute; reflexivity).
  assert (H2 : (34 * 1 < length Demo.boot_window)%nat) by (vm_compute; lia).
  assert (H3 : forall j, (j < 1)%nat ->
                 unit_valid (env := Demo.world) Demo.boot_window j = true).
  { intros j Hj. replace j with 0%nat by lia. vm_compute. reflexivity. }
  assert (H4 : unit_valid (env := Demo.world) Demo.boot_window 1 = false)
    by (vm_compute; reflexivity).
  exact (conj eq_refl (conj H1 (conj H2 (conj H3 (conj H4
           (checksum_chain_walk (env := Demo.world)
              "dump.bin" Demo.dump "boot" Demo.layout "/work" true Demo.boot
              Demo.boot_window 1 eq_refl H1 H2 H3 H4)))))).
Defined.

(** The boundary search in the [app] window of the demo dump, which is 96
    bytes long: the boundary is the chunk that ends at offset 48. *)
Lemma boundary_location_witness :
  Z.of_N (FlashPartition.size Demo.app) mod 16 = 0
  /\ 0 < find_end_marker (file_read Demo.dump 96 96) 96
  /\ boundary_located Demo.dump Demo.app.
Proof.
  assert (H1 : Z.of_N (FlashPartition.size Demo.app) mod 16 = 0)
    by reflexivity.
  assert (H2 : 0 < find_end_marker
                     (file_read Demo.dump (FlashPartition.start_address Demo.app)
                        (FlashPartition.size Demo.app))
                     (Z.of_N (FlashPartition.size Demo.app)))
    by (vm_compute; reflexivity).
  exact (conj H1 (conj H2 (boundary_location Demo.dump Demo.app H1 H2))).
Defined.

(** C2 as it is stated, on a window of 24 bytes: 8 bytes of data, then 16
    erased bytes. The first loop stops at the end of the window. No
    chunk that the second loop visits is a payload boundary, and the loop
    ends with [i = -8]; [data[:-8]] is the first 16 bytes of the window,
    which is neither empty nor the whole window. *)
Lemma boundary_location_unaligned :
  find_end_marker (file_read Demo.odd_dump 0 24) 24 = 24
  /\ (forall k : nat, 0 < 24 - 16 * Z.of_nat k ->
        ~ payload_boundary (file_read Demo.odd_dump 0 24) (24 - 16 * Z.of_nat k))
  /\ find_boundary (file_read Demo.odd_dump 0 24) 24 = -8
  /\ candidate_region Demo.odd_dump Demo.odd
     = ([], Returned (take 16 (file_read Demo.odd_dump 0 24)))
  /\ take 16 (file_read Demo.odd_dump 0 24) <> []
  /\ take 16 (file_read Demo.odd_dump 0 24) <> file_read Demo.odd_dump 0 24
  /\ ~ boundary_located Demo.odd_dump Demo.odd.
Proof.
  assert (Hmarker : find_end_marker (file_read Demo.odd_dump 0 24) 24 = 24)
    by (vm_compute; reflexivity).
  assert (Hregion : candidate_region Demo.odd_dump Demo.odd
                    = ([], Returned (take 16 (file_read Demo.odd_dump 0 24))))
    by (vm_compute; reflexivity).
  split_and!; try done.
  - intros k Hk [_ [H16 _]]. lia.
  - unfold boundary_located.
    change (FlashPartition.start_address Demo.odd) with 0%N.
    change (FlashPartition.size Demo.odd) with 24%N.
    change (Z.of_N 24) with 24. rewrite Hmarker, Hregion.
    intros [(k & Hk & [_ [H16 _]] & _) | [_ Hwhole]]; [lia | done].
Qed.

(** The first header of the dump with three signatures does not parse;
    the loop goes on to the two others. *)
Lemma parse_error_is_local_witness :
  from_bytestream (Env := Demo.world) Demo.rbl_dump 0 (Some Demo.layout)
  = ParseError "bad header"
  /\ carve_at (env := Demo.world) "dump.bin" Demo.rbl_dump (Some Demo.layout)
       "/work" true false [] 0
     = ([Print (MsgOffset 0); Print (MsgFailedToParse "bad header")],
        Returned [])
  /\ carve_loop (env := Demo.world) "dump.bin" Demo.rbl_dump
       (Some Demo.layout) "/work" true false [] ([] ++ 0%N :: [2%N; 6%N])
     = (carve_loop (env := Demo.world) "dump.bin" Demo.rbl_dump
          (Some Demo.layout) "/work" true false [] []
        ≫= fun containers' =>
             emit (Print (MsgOffset 0));;
             emit (Print (MsgFailedToParse "bad header"));;
             carve_loop (env := Demo.world) "dump.bin" Demo.rbl_dump
               (Some Demo.layout) "/work" true false containers' [2%N; 6%N]).
Proof.
  exact (conj eq_refl
           (parse_error_is_local (env := Demo.world) "dump.bin" Demo.rbl_dump
              (Some Demo.layout) "/work" true false [] [] [2%N; 6%N] 0%N
              "bad header" eq_refl)).
Defined.

(** A container called [ghost], which the demo layout does not have, is
    written and decrypted with the mapped address of [boot], the first
    partition of the layout. *)
Lemma unmatched_container_uses_first_partition_witness :
  FlashLayout.partitions Demo.layout = Demo.boot :: [Demo.app]
  /\ Container.payload Demo.ghost = Some ["p"; "q"]%byte
  /\ (Header.name (Container.header Demo.ghost)
        ∉ FlashPartition.name <$> FlashLayout.partitions Demo.layout)
  /\ carve_container (env := Demo.world) "dump.bin" (Some Demo.layout)
       "/work" true false Demo.ghost
     = (container_outputs (env := Demo.world) "dump.bin" "/work" false
          Demo.ghost ["p"; "q"]%byte Demo.boot,
        Returned tt).
Proof.
  assert (H : Header.name (Container.header Demo.ghost)
                ∉ FlashPartition.name <$> FlashLayout.partitions Demo.layout)
    by compute_done.
  exact (conj eq_refl (conj eq_refl (conj H
           (unmatched_container_uses_first_partition (env := Demo.world)
              "dump.bin" Demo.layout Demo.boot [Demo.app] "/work" false
              Demo.ghost ["p"; "q"]%byte eq_refl eq_refl H)))).
Defined.

(** C9 as it is stated, for the same container in a run without
    extraction: the header name matches no partition, the loop prints
    the identification line, and nothing is written or decrypted. *)
Lemma unmatched_container_without_extraction :
  (Header.name (Container.header Demo.ghost)
     ∉ FlashPartition.name <$> FlashLayout.partitions Demo.layout)
  /\ carve_container (env := Demo.world) "dump.bin" (Some Demo.layout)
       "/work" false false Demo.ghost
     = ([Print (MsgContainer "ghost" "NONE" 2)], Returned tt)
  /\ carve_container (env := Demo.world) "dump.bin" (Some Demo.layout)
       "/work" false false Demo.ghost
     <> (container_outputs (env := Demo.world) "dump.bin" "/work" false
           Demo.ghost ["p"; "q"]%byte Demo.boot,
         Returned tt).
Proof.
  split_and!; [compute_done | reflexivity | vm_compute; discriminate].
Qed.

(** C6 as it is stated, on the demo dump with extraction: two payloads
    are recovered and decrypted, and the embedded constant is decoded
    twice in that one run, once in each call of the decryption routine. *)
Lemma constant_decoded_per_call :
  decodes (trace (dissect_dump_file (env := Demo.world)
                    (Demo.args "demo" true) Demo.dump)) = 2%nat
  /\ ~ (decodes (trace (dissect_dump_file (env := Demo.world)
                         (Demo.args "demo" true) Demo.dump)) <= 1)%nat.
Proof.
  assert (H : decodes (trace (dissect_dump_file (env := Demo.world)
                                (Demo.args "demo" true) Demo.dump)) = 2%nat)
    by (vm_compute; reflexivity).
  split; [exact H | rewrite H; lia].
Qed.

(** A run on a layout name that the registry does not have. *)
Lemma unknown_layout_witness :
  FLASH_LAYOUTS (Env := Demo.world) !! Args.layout (Demo.args "nope" true) = None
  /\ result (dissect_dump_file (env := Demo.world) (Demo.args "nope" true)
               Demo.rbl_dump) = Raised AttributeError
  /\ Forall preliminary
       (trace (dissect_dump_file (env := Demo.world) (Demo.args "nope" true)
                 Demo.rbl_dump)).
Proof.
  assert (H : FLASH_LAYOUTS (Env := Demo.world)
                !! Args.layout (Demo.args "nope" true) = None)
    by (vm_compute; reflexivity).
  exact (conj H (unknown_layout (env := Demo.world) (Demo.args "nope" true)
                   Demo.rbl_dump H)).
Defined.



(** The cipher runs for the payload of [boot] recovered by the pattern
    scan and for the payload of the container [ghost]. *)
Lemma cipher_runs_for_every_payload_witness :
  List.find (named "boot") (FlashLayout.partitions Demo.layout) = Some Demo.boot
  /\ result (__scan_pattern_find_payload (env := Demo.world) "dump.bin"
               Demo.dump "boot" Demo.layout "/work" true)
     = Returned (replicate 32 "A"%byte)
  /\ (CipherDecrypt COEFFICIENTS
        (cipher_pad (Env := Demo.world) COEFFICIENTS (replicate 32 "A"%byte))
        (FlashPartition.mapped_address Demo.boot)
        ∈ trace (__scan_pattern_find_payload (env := Demo.world) "dump.bin"
                   Demo.dump "boot" Demo.layout "/work" true)
      <-> true = true)
  /\ Container.payload Demo.ghost = Some ["p"; "q"]%byte
  /\ result (carve_container (env := Demo.world) "dump.bin" (Some Demo.layout)
               "/work" true false Demo.ghost) = Returned tt
  /\ ((exists selected,
          selected ∈ FlashLayout.partitions Demo.layout
          /\ CipherDecrypt COEFFICIENTS
               (cipher_pad (Env := Demo.world) COEFFICIENTS ["p"; "q"]%byte)
               (FlashPartition.mapped_address selected)
               ∈ trace (carve_container (env := Demo.world) "dump.bin"
                          (Some Demo.layout) "/work" true false Demo.ghost))
      <-> true = true).
Proof.
  assert (H1 : result (__scan_pattern_find_payload (env := Demo.world)
                         "dump.bin" Demo.dump "boot" Demo.layout "/work" true)
               = Returned (replicate 32 "A"%byte)) by (vm_compute; reflexivity).
  assert (H2 : result (carve_container (env := Demo.world) "dump.bin"
                         (Some Demo.layout) "/work" true false Demo.ghost)
               = Returned tt) by (vm_compute; reflexivity).
  pose proof (cipher_runs_for_every_payload (env := Demo.world) "dump.bin"
                Demo.dump "boot" Demo.layout "/work" true false Demo.boot
                (replicate 32 "A"%byte) Demo.ghost ["p"; "q"]%byte)
    as [Hscan Hcarve].
  exact (conj eq_refl (conj H1 (conj (Hscan eq_refl H1)
           (conj eq_refl (conj H2 (Hcarve eq_refl H2)))))).
Defined.

(** C5 as it is stated, for the payload of [boot] in a reading of the
    layout where [boot] holds no code: with extraction enabled the
    cipher runs on it all the same. *)
Lemma cipher_runs_without_code_type :
  Demo.holds_code Demo.boot = false
  /\ result (__scan_pattern_find_payload (env := Demo.world) "dump.bin"
               Demo.dump "boot" Demo.layout "/work" true)
     = Returned (replicate 32 "A"%byte)
  /\ CipherDecrypt COEFFICIENTS (replicate 32 "A"%byte) 0
       ∈ trace (__scan_pattern_find_payload (env := Demo.world) "dump.bin"
                  Demo.dump "boot" Demo.layout "/work" true)
  /\ ~ (CipherDecrypt COEFFICIENTS (replicate 32 "A"%byte) 0
          ∈ trace (__scan_pattern_find_payload (env := Demo.world) "dump.bin"
                     Demo.dump "boot" Demo.layout "/work" true)
        <-> Demo.holds_code Demo.boot = true).
Proof.
  assert (Hin : CipherDecrypt COEFFICIENTS (replicate 32 "A"%byte) 0
                  ∈ trace (__scan_pattern_find_payload (env := Demo.world)
                             "dump.bin" Demo.dump "boot" Demo.layout "/work"
                             true)).
  { apply list_elem_of_In. vm_compute. tauto. }
  split_and!; [reflexivity | vm_compute; reflexivity | done |].
  intros [Hcode _]. apply Hcode in Hin. discriminate.
Qed.

(** ** More on the checksum-chain walk *)

Section WalkTotal.

Context `{env : Env}.

Local Arguments Nat.mul : simpl never.
Local Arguments Nat.div : simpl never.
Local Arguments take : simpl never.
Local Arguments drop : simpl never.

Lemma unit_exists_iff (payload : bytes) (j : nat) :
  (34 * j < length payload)%nat <-> (j < unit_count payload)%nat.
Proof.
  unfold unit_count.
  pose proof (Nat.div_mod_eq (length payload + 33) 34) as Hdiv.
  pose proof (Nat.mod_upper_bound (length payload + 33) 34 ltac:(lia)).
  split; nia.
Qed.

(** The loop, entered at unit [j], when every unit from there to the end
    of the region validates. *)
Lemma crc_loop_all_valid (name : string) (payload : bytes) :
  (forall j, (j < unit_count payload)%nat -> unit_valid payload j = true) ->
  forall (d j fuel : nat) (acc : bytes),
    (j + d = unit_count payload)%nat -> (d < fuel)%nat ->
    crc_loop fuel name (drop (34 * j + 32) payload) (unit_data payload j)
      (bool_decide (j = 0%nat)) acc
    = mret (acc ++ concat (unit_data payload <$> seq j d)).
Proof.
  intros Hvalid. induction d as [|d IH]; intros j fuel acc Hj Hfuel.
  - destruct fuel as [|fuel]; [lia|]. cbn [crc_loop].
    assert (Hnone : unit_data payload j = []).
    { apply length_zero_iff_nil. unfold unit_data.
      rewrite length_take, length_drop.
      assert (~ (34 * j < length payload)%nat)
        by (rewrite unit_exists_iff; lia).
      lia. }
    rewrite Hnone. simpl. by rewrite app_nil_r.
  - destruct fuel as [|fuel]; [lia|]. cbn [crc_loop].
    destruct (unit_data payload j) as [|b block] eqn:Hblock.
    { apply unit_data_nonempty in Hblock; [done|].
      apply unit_exists_iff. lia. }
    rewrite <- Hblock.
    change (take 2 (drop (34 * j + 32) payload)) with (unit_crc payload j).
    change (block_crc_check (unit_data payload j) (unit_crc payload j))
      with (unit_valid payload j).
    rewrite Hvalid by lia. cbn [negb].
    rewrite !drop_drop.
    replace (34 * j + 32 + (2 + 32))%nat with (34 * S j + 32)%nat by lia.
    replace (34 * j + 32 + 2)%nat with (34 * S j)%nat by lia.
    change (take 32 (drop (34 * S j) payload)) with (unit_data payload (S j)).
    change false with (bool_decide (S j = 0%nat)) at 1.
    rewrite IH by lia. cbn [seq fmap list_fmap concat].
    by rewrite <- app_assoc.
Qed.

(** Among the first [n] units, either none fails or there is a first
    one that does. *)
Lemma first_failing_unit (payload : bytes) (n : nat) :
  (forall j, (j < n)%nat -> unit_valid payload j = true)
  \/ exists k, (k < n)%nat
               /\ (forall j, (j < k)%nat -> unit_valid payload j = true)
               /\ unit_valid payload k = false.
Proof.
  induction n as [|n [Hall | (k & Hk & Hbefore & Hfail)]].
  - left. lia.
  - destruct (unit_valid payload n) eqn:Hn.
    + left. intros j Hj. destruct (decide (j = n)) as [->|]; [done|].
      apply Hall. lia.
    + right. exists n. split_and!; [lia | done | done].
  - right. exists k. split_and!; [lia | done | done].
Qed.

(** The two ways a walk ends. *)
Lemma crc_walk_cases (name : string) (payload : bytes) :
  (payload <> [] /\ unit_valid payload 0 = false
   /\ crc_walk name payload = raise (ChecksumMismatch name))
  \/ exists k : nat,
       (k <= unit_count payload)%nat
       /\ (forall j, (j < k)%nat -> unit_valid payload j = true)
       /\ (k = unit_count payload \/ unit_valid payload k = false)
       /\ (payload <> [] -> (0 < k)%nat)
       /\ crc_walk name payload = mret (validated_data payload k).
Proof.
  destruct (first_failing_unit payload (unit_count payload))
    as [Hall | (k & Hk & Hbefore & Hfail)].
  - right. exists (unit_count payload). split_and!; [done | done | by left | |].
    + intros Hne. apply unit_exists_iff. destruct payload; [done|].
      simpl. lia.
    + unfold crc_walk, validated_data.
      exact (crc_loop_all_valid name payload Hall (unit_count payload) 0%nat
               (S (length payload)) [] eq_refl
               ltac:(unfold unit_count;
                     pose proof (Nat.div_mod_eq (length payload + 33) 34);
                     lia)).
  - apply unit_exists_iff in Hk as Hk'.
    pose proof (crc_walk_first_failure name payload k Hk' Hbefore Hfail) as Hw.
    destruct k as [|k].
    + left. split_and!; [by intros -> | done | done].
    + right. exists (S k). split_and!; [lia | done | by right | lia | done].
Qed.

(** The walk over a region made of whole units, each of 32 bytes of
    data and 2 bytes of checksum, so that the checksum test is only ever
    put to a whole unit. It raises [ChecksumMismatch] exactly when the
    region is not empty and its first unit fails. Otherwise it returns
    the data blocks of the leading units that validate: it goes on to
    the end of the region when every unit validates, it stops at the
    first unit that fails, and it never returns a block whose unit
    failed. *)
Theorem crc_walk_outcome (name : string) (payload : bytes) (units : nat) :
  length payload = (34 * units)%nat ->
  ((0 < units)%nat /\ unit_valid payload 0 = false
   /\ crc_walk name payload = raise (ChecksumMismatch name))
  \/ exists k : nat,
       (k <= units)%nat
       /\ (forall j, (j < k)%nat ->
             length (unit_data payload j) = 32%nat
             /\ length (unit_crc payload j) = 2%nat
             /\ unit_valid payload j = true)
       /\ (k = units \/ unit_valid payload k = false)
       /\ ((0 < units)%nat -> (0 < k)%nat)
       /\ crc_walk name payload = mret (validated_data payload k).
Proof.
  intros Hlen.
  assert (Hcount : unit_count payload = units).
  { unfold unit_count. rewrite Hlen.
    pose proof (Nat.div_mod_eq (34 * units + 33) 34) as Hdiv.
    pose proof (Nat.mod_upper_bound (34 * units + 33) 34 ltac:(lia)).
    lia. }
  destruct (crc_walk_cases name payload)
    as [(Hne & Hfail & Hw) | (k & Hk & Hvalid & Hend & Hpos & Hw)].
  - left. split_and!; [|done|done].
    destruct units as [|units]; [|lia].
    destruct payload; [done | simpl in Hlen; lia].
  - right. rewrite Hcount in Hk, Hend. exists k.
    split_and!; [done | | done | | done].
    + intros j Hj. split_and!; [| | by apply Hvalid].
      * unfold unit_data. rewrite length_take, length_drop. lia.
      * unfold unit_crc. rewrite length_take, length_drop. lia.
    + intros Hunits. apply Hpos. intros ->. simpl in Hlen. lia.
Qed.

End WalkTotal.

(** ** More on the pattern-scan extractor *)

Section ScanExtras.

Context `{env : Env}.

Lemma py_slice_from_start {A : Type} (l : list A) (i : Z) :
  py_slice l 0 i = take (Z.to_nat (py_bound (Z.of_nat (length l)) i)) l.
Proof.
  unfold py_slice. unfold py_bound at 2 3. change (0 <? 0) with false.
  cbv iota. replace (Z.to_nat (Z.min 0 _)) with 0%nat by lia.
  rewrite drop_0. f_equal. lia.
Qed.

Lemma take_prefix_of {A : Type} (l : list A) (n : nat) : take n l `prefix_of` l.
Proof. exists (drop n l). by rewrite take_drop. Qed.

(** A returned candidate region is an initial part of the window. *)
Lemma candidate_region_is_prefix (dump : bytes) (partition : FlashPartition.t)
    (payload : bytes) :
  result (candidate_region dump partition) = Returned payload ->
  payload <> [] /\ payload `prefix_of` window dump partition.
Proof.
  unfold candidate_region, window.
  set (data := file_read dump _ _).
  set (size := Z.of_N _).
  destruct (find_end_marker data size <=? 0) eqn:Hle; [done|].
  apply Z.leb_gt in Hle.
  assert (Hdata : data <> []).
  { destruct (find_end_marker_spec data size)
      as [(k & _ & Hk & _) | [_ ?]]; [|lia].
    apply erased_chunk_bounds in Hk. intros Hnil. rewrite Hnil in Hk.
    simpl in Hk. lia. }
  destruct (py_slice data 0 _) as [|b l] eqn:Hslice; simpl; intros [= <-].
  - done.
  - split; [done|]. rewrite <- Hslice, py_slice_from_start.
    apply take_prefix_of.
Qed.

(** The candidate region that the scan settles on is never empty and is
    always an initial part of the partition window, whatever the size of
    the window and wherever the two loops stopped. *)
Theorem candidate_region_prefix (dump : bytes) (partition : FlashPartition.t)
    (payload : bytes) :
  result (candidate_region dump partition) = Returned payload ->
  payload <> [] /\ payload `prefix_of` window dump partition.
Proof. apply candidate_region_is_prefix. Qed.

Lemma candidate_region_raises (dump : bytes) (partition : FlashPartition.t)
    (e : exn) :
  result (candidate_region dump partition) = Raised e ->
  e = EndOfPartitionNotFound (FlashPartition.name partition).
Proof.
  unfold candidate_region. destruct (_ <=? 0); simpl; [by intros [= <-]|].
  by destruct (py_slice _ 0 _).
Qed.

Lemma validated_data_nonempty (payload : bytes) (k : nat) :
  payload <> [] -> (0 < k)%nat -> validated_data payload k <> [].
Proof.
  intros Hne Hk. destruct k as [|k]; [lia|].
  unfold validated_data. cbn [seq fmap list_fmap concat].
  unfold unit_data at 1. destruct payload as [|b payload]; [done|]. done.
Qed.

(** A pattern scan that returns has recovered at least one block: the
    payload it returns is not empty, it is made of the data blocks of
    the leading units of a non-empty initial part of the partition
    window, and every one of these units passed its checksum. *)
Theorem scan_recovers_validated_blocks (dumpfile : string) (dump : bytes)
    (n : string) (layout : FlashLayout.t) (out : string) (extract : bool)
    (final : bytes) :
  result (__scan_pattern_find_payload dumpfile dump n layout out extract)
  = Returned final ->
  final <> []
  /\ exists (partition : FlashPartition.t) (payload : bytes) (k : nat),
       List.find (named n) (FlashLayout.partitions layout) = Some partition
       /\ payload `prefix_of` window dump partition
       /\ (0 < k <= unit_count payload)%nat
       /\ (forall j, (j < k)%nat -> unit_valid payload j = true)
       /\ final = validated_data payload k.
Proof.
  intros Hres.
  destruct (List.find (named n) (FlashLayout.partitions layout))
    as [partition|] eqn:Hfind.
  2:{ apply find_named_None in Hfind.
      by rewrite (scan_unknown _ _ _ _ _ _ Hfind) in Hres. }
  rewrite (scan_known _ _ _ _ _ _ _ Hfind) in Hres.
  destruct (result (candidate_region dump partition)) as [payload|e] eqn:Hr.
  2:{ by rewrite (scan_partition_no_region _ _ _ _ _ _ _ Hr) in Hres. }
  destruct (candidate_region_is_prefix _ _ _ Hr) as [Hne Hprefix].
  destruct (crc_walk_cases (FlashPartition.name partition) payload)
    as [(_ & _ & Hw) | (k & Hk & Hvalid & _ & Hpos & Hw)].
  { by rewrite (scan_partition_walk_raises _ _ _ _ _ _ _ _ Hr Hw) in Hres. }
  rewrite (scan_partition_walk_returns _ _ _ _ _ _ _ _ Hr Hw) in Hres.
  injection Hres as <-. split.
  - apply validated_data_nonempty; auto.
  - exists partition, payload, k. split_and!; auto.
Qed.


Lemma candidate_region_raised_no_marker (dump : bytes)
    (partition : FlashPartition.t) (e : exn) :
  result (candidate_region dump partition) = Raised e ->
  let size := Z.of_N (FlashPartition.size partition) in
  forall k : nat, 0 < size - 16 * Z.of_nat k ->
    ~ erased_chunk (window dump partition) (size - 16 * Z.of_nat k).
Proof.
  unfold candidate_region, window.
  set (data := file_read dump _ _).
  set (size := Z.of_N _).
  destruct (find_end_marker data size <=? 0) eqn:Hle.
  - intros _. apply Z.leb_le in Hle.
    destruct (find_end_marker_spec data size)
      as [(k & Hpos & _ & _ & Hi) | [Hnone _]]; [lia | done].
  - by destruct (py_slice data 0 _).
Qed.

(** What each error of the pattern scan tells. [PartitionNotFound] is
    raised exactly when the layout has no partition of the name asked
    for, and it carries that name and the name of the layout. A scan
    that raises [EndOfPartitionNotFound] names the partition asked for,
    which the layout has, and none of the chunks that the search visits
    in the window of that partition is entirely 0xFF. A scan that raises
    [ChecksumMismatch] names the partition asked for, which the layout
    has, the search has settled on a candidate region, which is not
    empty, and the first unit of that region fails its checksum. *)
Theorem scan_error_conditions (dumpfile : string) (dump : bytes) (n : string)
    (layout : FlashLayout.t) (out : string) (extract : bool) :
  let r :=
    result (__scan_pattern_find_payload dumpfile dump n layout out extract) in
  (forall m l, r = Raised (PartitionNotFound m l) <->
     m = n /\ l = FlashLayout.name layout
     /\ (n ∉ FlashPartition.name <$> FlashLayout.partitions layout))
  /\ (forall m, r = Raised (EndOfPartitionNotFound m) ->
        m = n
        /\ exists partition,
             List.find (named n) (FlashLayout.partitions layout)
             = Some partition
             /\ forall k : nat,
                  0 < Z.of_N (FlashPartition.size partition) - 16 * Z.of_nat k ->
                  ~ erased_chunk (window dump partition)
                      (Z.of_N (FlashPartition.size partition)
                       - 16 * Z.of_nat k))
  /\ (forall m, r = Raised (ChecksumMismatch m) ->
        m = n
        /\ exists partition payload,
             List.find (named n) (FlashLayout.partitions layout)
             = Some partition
             /\ result (candidate_region dump partition) = Returned payload
             /\ payload <> []
             /\ unit_valid payload 0 = false).
Proof.
  intros r. unfold r. clear r.
  destruct (List.find (named n) (FlashLayout.partitions layout))
    as [partition|] eqn:Hfind.
  - assert (Hin : n ∈ FlashPartition.name <$> FlashLayout.partitions layout).
    { destruct (decide (n ∈ FlashPartition.name
                              <$> FlashLayout.partitions layout)) as [|Hn];
        [done|]. apply find_named_None in Hn. congruence. }
    pose proof (find_named_name _ _ _ Hfind) as Hname.
    rewrite (scan_known _ _ _ _ _ _ _ Hfind).
    destruct (result (candidate_region dump partition)) as [payload|e'] eqn:Hr.
    + destruct (candidate_region_is_prefix _ _ _ Hr) as [Hne _].
      destruct (crc_walk_cases (FlashPartition.name partition) payload)
        as [(_ & Hfail & Hw) | (k & _ & _ & _ & _ & Hw)].
      * rewrite (scan_partition_walk_raises _ _ _ _ _ _ _ _ Hr Hw).
        unfold result. simpl. split_and!.
        -- intros m l. split; [done | by intros (_ & _ & ?)].
        -- done.
        -- intros m [= <-]. split; [done|]. by exists partition, payload.
      * rewrite (scan_partition_walk_returns _ _ _ _ _ _ _ _ Hr Hw).
        unfold result. simpl. split_and!; [|done|done].
        intros m l. split; [done | by intros (_ & _ & ?)].
    + rewrite (scan_partition_no_region _ _ _ _ _ _ _ Hr).
      pose proof (candidate_region_raised_no_marker _ _ _ Hr) as Hnone.
      apply candidate_region_raises in Hr. subst e'.
      unfold result. simpl. split_and!.
      * intros m l. split; [done | by intros (_ & _ & ?)].
      * intros m [= <-]. split; [done|]. by exists partition.
      * done.
  - apply find_named_None in Hfind.
    rewrite (scan_unknown _ _ _ _ _ _ Hfind). unfold result. simpl.
    split_and!; [|done|done].
    intros m l. split.
    + by intros [= <- <-].
    + by intros (-> & -> & _).
Qed.

(** The pattern scan looks at the dump only through the window of the
    partition it was asked for: on two dumps that agree on the window of
    every partition of that name, it does and returns the same. *)
Theorem scan_reads_only_window (dumpfile : string) (dump dump' : bytes)
    (n : string) (layout : FlashLayout.t) (out : string) (extract : bool) :
  (forall p, p ∈ FlashLayout.partitions layout -> FlashPartition.name p = n ->
             window dump p = window dump' p) ->
  __scan_pattern_find_payload dumpfile dump n layout out extract
  = __scan_pattern_find_payload dumpfile dump' n layout out extract.
Proof.
  intros Hsame.
  destruct (List.find (named n) (FlashLayout.partitions layout))
    as [partition|] eqn:Hfind.
  - rewrite !(scan_known _ _ _ _ _ _ _ Hfind).
    assert (Hw : window dump partition = window dump' partition).
    { apply Hsame; [|by apply find_named_name in Hfind].
      apply find_some in Hfind as [Hin _]. by apply list_elem_of_In. }
    unfold scan_partition, candidate_region. unfold window in Hw.
    by rewrite Hw.
  - apply find_named_None in Hfind. by rewrite !scan_unknown.
Qed.

End ScanExtras.

Section ErasedWindow.

Context `{env : Env}.

Lemma erased_chunk_replicate (m : nat) (i : Z) :
  16 <= i <= Z.of_nat m -> erased_chunk (replicate m xff) i.
Proof.
  intros Hi. split; [lia|].
  rewrite drop_replicate, take_replicate. unfold FF16. f_equal. lia.
Qed.

(** A partition window that is wholly erased, of a size that is a
    positive multiple of 16: the first loop stops at the end of the
    window, the second finds no boundary, and the whole window becomes
    the candidate region. The extraction then fails with
    [ChecksumMismatch] when the checksum rejects the erased first unit. *)
Theorem erased_window (dumpfile : string) (dump : bytes) (n : string)
    (layout : FlashLayout.t) (out : string) (extract : bool)
    (partition : FlashPartition.t) :
  List.find (named n) (FlashLayout.partitions layout) = Some partition ->
  (0 < FlashPartition.size partition)%N ->
  Z.of_N (FlashPartition.size partition) mod 16 = 0 ->
  window dump partition
  = replicate (N.to_nat (FlashPartition.size partition)) xff ->
  candidate_region dump partition = ([], Returned (window dump partition))
  /\ (unit_valid (window dump partition) 0 = false ->
      __scan_pattern_find_payload dumpfile dump n layout out extract
      = ([OpenDump dumpfile], Raised (ChecksumMismatch n))).
Proof.
  intros Hfind Hpos Hmod Herased.
  assert (Hregion : candidate_region dump partition
                    = ([], Returned (window dump partition))).
  { unfold window in *.
    set (data := file_read dump _ _) in *.
    set (size := Z.of_N (FlashPartition.size partition)) in *.
    assert (H16 : 16 <= size).
    { apply Z.mod_divide in Hmod as [q Hq]; lia. }
    assert (Hall : forall i, 16 <= i <= size -> erased_chunk data i).
    { intros i Hi. rewrite Herased. apply erased_chunk_replicate. lia. }
    assert (Hmarker : find_end_marker data size = size).
    { rewrite find_end_marker_eq.
      rewrite (proj2 (Z.ltb_lt _ _)) by lia.
      rewrite bool_decide_eq_true_2; [done|].
      apply datablock_erased; [lia|]. apply Hall. lia. }
    pose proof (candidate_region_marker dump partition) as Hcand.
    cbv zeta in Hcand. fold data size in Hcand.
    rewrite Hmarker in Hcand. rewrite Hcand by lia.
    destruct (find_boundary_spec data size ltac:(lia) Hmod)
      as [(k & Hk0 & [Hnot _] & _) | [_ ->]].
    - exfalso. apply Hnot, Hall. split; [|lia].
      assert ((size - 16 * Z.of_nat k) mod 16 = 0).
      { replace (size - 16 * Z.of_nat k)
          with (size + (- Z.of_nat k) * 16) by lia.
        by rewrite Z.mod_add. }
      apply Z.mod_divide in H as [q Hq]; lia.
    - by rewrite py_slice_prefix by lia. }
  split; [done|]. intros Hfail.
  rewrite (scan_known _ _ _ _ _ _ _ Hfind).
  rewrite <- (find_named_name _ _ _ Hfind).
  apply scan_partition_walk_raises with (window dump partition).
  - by rewrite Hregion.
  - assert (Hne : (34 * 0 < length (window dump partition))%nat).
    { rewrite Herased, length_replicate. lia. }
    exact (crc_walk_first_failure _ _ 0%nat Hne ltac:(lia) Hfail).
Qed.

End ErasedWindow.

(** ** More on the carving loop *)

Section CarveExtras.

Context `{env : Env}.




(** A carving that returns, on any layout or none, returns the
    containers that parsed at the located offsets, those without payload
    included, in the order of the offsets and with nothing else: a
    header that failed to parse is left out and no container is dropped
    or added by the rest of the round. *)
Theorem carve_returns_parsed (dumpfile : string) (dump : bytes)
    (layout : option FlashLayout.t) (out : string) (extract with_rbl : bool)
    (containers : list Container.t) :
  result (__carve_and_write_rbl_containers dumpfile dump layout out extract
            with_rbl) = Returned containers ->
  containers
  = omap (parsed_at dump layout) (find_rbl_containers_indices dump).
Proof.
  unfold __carve_and_write_rbl_containers.
  destruct (find_rbl_containers_indices dump) as [|idx indices] eqn:Hi.
  - by intros [= <-].
  - intros H. apply bind_result_returned in H as ([] & _ & H).
    apply bind_result_returned in H as ([] & _ & H).
    by apply carve_loop_result in H as ->.
Qed.

(** On a layout without partitions the round for a container that has a
    payload ends with [IndexError], raised by [layout.partitions[0]]
    after the identification line: nothing is written and the remaining
    offsets are not visited. *)
Theorem empty_layout_index_error (dumpfile : string) (dump : bytes)
    (layout : FlashLayout.t) (out : string) (extract with_rbl : bool)
    (containers : list Container.t) (idx : N) (rest : list N)
    (c : Container.t) (payload : bytes) :
  FlashLayout.partitions layout = [] ->
  from_bytestream dump idx (Some layout) = Parsed c ->
  Container.payload c = Some payload ->
  carve_loop dumpfile dump (Some layout) out extract with_rbl containers
    (idx :: rest)
  = ([Print (MsgOffset idx);
      Print (MsgContainer (Header.name (Container.header c))
               (Header.algo (Container.header c)) (length payload))],
     Raised IndexError).
Proof.
  intros Hparts Hparse Hpayload. cbn [carve_loop].
  unfold carve_at, carve_container, layout_partitions.
  rewrite Hparse. simpl. rewrite Hpayload, Hparts. reflexivity.
Qed.

Lemma find_named_first (n : string) (before after : list FlashPartition.t)
    (p : FlashPartition.t) :
  FlashPartition.name p = n ->
  (forall q, q ∈ before -> FlashPartition.name q <> n) ->
  List.find (named n) (before ++ p :: after) = Some p.
Proof.
  intros Hp. induction before as [|q before IH]; intros Hbefore; simpl.
  - unfold named. by rewrite bool_decide_eq_true_2.
  - unfold named at 1. rewrite bool_decide_eq_false_2.
    + apply IH. intros q' Hq'. apply Hbefore. by apply list_elem_of_further.
    + apply Hbefore. apply list_elem_of_here.
Qed.

(** When extraction is enabled and the header name of a container with a
    payload is the name of partitions of the layout, the container is
    written under its own name and its payload is decrypted with the
    mapped address of the first partition of that name. *)
Theorem matched_container_uses_named_partition (dumpfile : string)
    (layout : FlashLayout.t) (before after : list FlashPartition.t)
    (p : FlashPartition.t) (out : string) (with_rbl : bool)
    (container : Container.t) (payload : bytes) :
  FlashLayout.partitions layout = before ++ p :: after ->
  FlashPartition.name p = Header.name (Container.header container) ->
  (forall q, q ∈ before ->
             FlashPartition.name q <> Header.name (Container.header container)) ->
  Container.payload container = Some payload ->
  carve_container dumpfile (Some layout) out true with_rbl container
  = (container_outputs dumpfile out with_rbl container payload p,
     Returned tt).
Proof.
  intros Hparts Hp Hbefore Hpayload.
  pose proof (find_named_first _ before after p Hp Hbefore) as Hfind.
  destruct (before ++ p :: after) as [|first rest] eqn:Hlist;
    [by destruct before|].
  rewrite (carve_container_returns _ _ first rest _ _ _ _ _ Hparts Hpayload).
  by rewrite Hfind.
Qed.

End CarveExtras.

(** ** More on the entry point *)

Section EntryExtras.

Context `{env : Env}.

Lemma Forall_trace_ret {A : Type} (P : event -> Prop) (a : A) :
  Forall P (trace (mret a : io A)).
Proof. constructor. Qed.

Lemma carve_container_allowed (dumpfile out : string) (dump : bytes)
    (layout : option FlashLayout.t) (extract with_rbl : bool) (idx : N)
    (c : Container.t) :
  idx ∈ find_rbl_containers_indices dump ->
  parsed_at dump layout idx = Some c ->
  Forall (allowed dumpfile out extract dump layout)
    (trace (carve_container dumpfile layout out extract with_rbl c)).
Proof.
  intros Hidx Hparsed.
  destruct (Container.payload c) as [payload|] eqn:Hpayload.
  2:{ unfold carve_container. rewrite Hpayload. by repeat constructor. }
  destruct layout as [l|].
  2:{ unfold carve_container. rewrite Hpayload. by repeat constructor. }
  destruct (FlashLayout.partitions l) as [|first rest] eqn:Hparts.
  { unfold carve_container, layout_partitions. rewrite Hpayload, Hparts.
    by repeat constructor. }
  rewrite (carve_container_returns _ _ _ _ _ _ _ _ _ Hparts Hpayload).
  destruct extract; [|by repeat constructor].
  assert (Hpath : forall path,
             path = __generate_payload_output_file_path dumpfile
                      (Header.name (Container.header c)) out
                      (Header.version (Container.header c))
             \/ path = __generate_payload_output_file_path dumpfile
                         (Header.name (Container.header c)) out
                         (Header.version (Container.header c) +:+ "_decrypted") ->
             output_path dumpfile out dump (Some l) path).
  { intros path Hp. right. by exists idx, c. }
  unfold trace, container_outputs. simpl.
  repeat first [apply Forall_cons_2 | apply Forall_nil_2];
    try done; try (split; [done | apply Hpath; auto]).
  split_and!; [done | done |].
  exists l, (default first
               (List.find (named (Header.name (Container.header c)))
                  (first :: rest))).
  split_and!; [done | | reflexivity].
  rewrite Hparts. apply selected_partition_in.
Qed.

Lemma carve_loop_allowed (dumpfile out : string) (dump : bytes)
    (layout : option FlashLayout.t) (extract with_rbl : bool)
    (indices : list N) (containers : list Container.t) :
  (forall idx, idx ∈ indices -> idx ∈ find_rbl_containers_indices dump) ->
  Forall (allowed dumpfile out extract dump layout)
    (trace (carve_loop dumpfile dump layout out extract with_rbl containers
              indices)).
Proof.
  revert containers. induction indices as [|idx indices IH];
    intros containers Hsub; cbn [carve_loop]; [constructor|].
  apply Forall_trace_bind.
  - unfold carve_at. apply Forall_trace_bind; [by repeat constructor|].
    intros _ _. apply Forall_trace_bind.
    + destruct (from_bytestream dump idx layout); by repeat constructor.
    + intros [c|] Hc; [|constructor].
      apply Forall_trace_bind; [|intros; constructor].
      apply carve_container_allowed with idx.
      * apply Hsub, list_elem_of_here.
      * unfold parsed_at.
        destruct (from_bytestream dump idx layout); simpl in Hc; congruence.
  - intros cs _. apply IH. intros idx' Hidx'.
    by apply Hsub, list_elem_of_further.
Qed.

Lemma carve_allowed (dumpfile out : string) (dump : bytes)
    (layout : option FlashLayout.t) (extract with_rbl : bool) :
  Forall (allowed dumpfile out extract dump layout)
    (trace (__carve_and_write_rbl_containers dumpfile dump layout out extract
              with_rbl)).
Proof.
  unfold __carve_and_write_rbl_containers.
  apply Forall_trace_bind; [by repeat constructor|]. intros _ _.
  destruct (find_rbl_containers_indices dump) as [|idx indices] eqn:Hi;
    [constructor|].
  apply Forall_trace_bind; [by repeat constructor|]. intros _ _.
  apply carve_loop_allowed. intros idx' Hidx'. by rewrite Hi.
Qed.

Lemma scan_allowed (dumpfile out : string) (dump : bytes)
    (layout : FlashLayout.t) (extract : bool) (n : string) :
  Forall (allowed dumpfile out extract dump (Some layout))
    (trace (__scan_pattern_find_payload dumpfile dump n layout out extract)).
Proof.
  destruct (scan_cases dumpfile dump n layout out extract)
    as [[e ->] | [[e ->] | (p & final & Hfind & ->)]];
    [constructor | by repeat constructor |].
  unfold trace, scan_outputs. simpl.
  constructor; [done|]. constructor; [done|].
  destruct extract; [|constructor].
  assert (Hn : n ∈ FlashPartition.name <$> FlashLayout.partitions layout).
  { destruct (decide (n ∈ FlashPartition.name
                            <$> FlashLayout.partitions layout)) as [|Hn];
      [done|]. apply find_named_None in Hn. congruence. }
  assert (Hpath : forall path,
             path = __generate_payload_output_file_path dumpfile n out
                      "pattern_scan"
             \/ path = __generate_payload_output_file_path dumpfile n out
                         "pattern_scan_decrypted" ->
             output_path dumpfile out dump (Some layout) path).
  { intros path Hp. left. by exists layout, n. }
  repeat first [apply Forall_cons_2 | apply Forall_nil_2];
    try done; try (split; [done | apply Hpath; auto]).
  split_and!; [done | done |].
  exists layout, p. split_and!; [done | | done].
  apply find_some in Hfind as [Hin _]. by apply list_elem_of_In.
Qed.

Lemma fallback_loop_allowed (dumpfile out : string) (dump : bytes)
    (layout : FlashLayout.t) (extract : bool) (todo : list string) :
  Forall (allowed dumpfile out extract dump (Some layout))
    (trace (fallback_loop dumpfile dump layout out extract todo)).
Proof.
  induction todo as [|n todo IH]; cbn [fallback_loop]; [constructor|].
  apply Forall_trace_bind; [by repeat constructor|]. intros _ _.
  apply Forall_trace_bind; [apply scan_allowed | by intros].
Qed.

Lemma dissect_main_allowed (args : Args.t) (dump : bytes) (extract : bool)
    (out : string) :
  Forall (allowed (Args.file args) out extract dump
            (FLASH_LAYOUTS !! Args.layout args))
    (trace (dissect_main args dump extract out)).
Proof.
  unfold dissect_main. apply Forall_trace_bind; [apply carve_allowed|].
  intros cs _. destruct (FLASH_LAYOUTS !! Args.layout args) as [l|];
    [apply fallback_loop_allowed | constructor].
Qed.

End EntryExtras.

Section EntryExtraTheorems.

Context `{env : Env}.

(** A run without [-e] and with the default output directory reads and
    prints only: it opens the dump and nothing else, makes no directory,
    writes no file, does not decode the constant and never runs the
    cipher, whatever the dump holds and however the run ends. *)
Theorem no_extraction_no_output (args : Args.t) (dump : bytes) :
  Args.extract args = false ->
  Args.output_dir args = "" \/ Args.output_dir args = getcwd ->
  Forall (read_only (Args.file args)) (trace (dissect_dump_file args dump)).
Proof.
  intros He Hdir.
  assert (Hout : output_directory_of args = getcwd).
  { unfold output_directory_of. case_bool_decide; [done|]. by destruct Hdir. }
  assert (Hoff : extraction_on args = false).
  { unfold extraction_on. rewrite He, Hout. simpl.
    by apply bool_decide_eq_false_2; intros []. }
  rewrite dissect_explicit, Hoff, He. unfold trace at 1. simpl.
  rewrite (bool_decide_eq_false_2 (output_directory_of args ≠ getcwd))
    by (by intros []).
  simpl. eapply Forall_impl; [apply dissect_main_allowed|].
  intros [m|d|d|path|path c|s|c padded address]; simpl; try done;
    by intros [? _].
Qed.

(** An output directory other than the current one turns extraction on:
    without [-e] the run prints a notice and then does and returns what
    the run with [-e] and the same arguments does. *)
Theorem output_dir_forces_extraction (args : Args.t) (dump : bytes) :
  Args.output_dir args <> "" ->
  Args.output_dir args <> getcwd ->
  Args.extract args = false ->
  let args' := Args.mk (Args.file args) (Args.layout args)
                 (Args.output_dir args) true (Args.rbl args) in
  dissect_dump_file args dump
  = (Print MsgAssumeExtract :: trace (dissect_dump_file args' dump),
     result (dissect_dump_file args' dump)).
Proof.
  intros Hne Hcwd He args'.
  assert (Hout : output_directory_of args ≠ getcwd).
  { unfold output_directory_of. by rewrite bool_decide_eq_false_2. }
  rewrite !dissect_explicit. unfold extraction_on.
  change (output_directory_of args') with (output_directory_of args).
  change (Args.extract args') with true. rewrite He.
  rewrite (bool_decide_eq_true_2 _ Hout). reflexivity.
Qed.

(** Every run stays within the naming scheme. The only file it opens for
    reading is the dump and the only directory it makes is the output
    directory. Every file it writes is, in the output directory, one of
    the two files of the pattern scan for a partition of the layout or
    one of the two files, tagged with the version, of a container that
    parsed at a located offset. Every run of the cipher uses the four
    fixed coefficients and the mapped address of a partition of the
    layout. *)
Theorem run_in_scheme (args : Args.t) (dump : bytes) :
  Forall (in_scheme args dump) (trace (dissect_dump_file args dump)).
Proof.
  rewrite dissect_explicit. unfold trace at 1. simpl.
  apply Forall_app. split; [destruct (_ && _); by repeat constructor|].
  apply Forall_app. split; [destruct (extraction_on args); by repeat constructor|].
  eapply Forall_impl; [apply dissect_main_allowed|].
  intros [m|d|d|path|path c|s|c padded address]; simpl; try done;
    by intros [_ ?].
Qed.



End EntryExtraTheorems.

Section ScanComposition.

Context `{env : Env}.

(** What a returning pattern scan leaves behind is what it returns: after
    opening the dump it prints one line with the address of the
    partition and the size of the recovered payload and, when extraction
    is enabled, writes that very payload to the raw file and the output
    of the cipher on it to the decrypted file. *)
Theorem scan_writes_what_it_returns (dumpfile : string) (dump : bytes)
    (n : string) (layout : FlashLayout.t) (out : string) (extract : bool)
    (partition : FlashPartition.t) (final : bytes) :
  List.find (named n) (FlashLayout.partitions layout) = Some partition ->
  result (__scan_pattern_find_payload dumpfile dump n layout out extract)
  = Returned final ->
  trace (__scan_pattern_find_payload dumpfile dump n layout out extract)
  = OpenDump dumpfile :: scan_outputs dumpfile n out partition extract final.
Proof.
  intros Hfind Hres. rewrite (scan_known _ _ _ _ _ _ _ Hfind) in Hres |- *.
  destruct (scan_partition_cases dumpfile dump n partition out extract)
    as [[e He] | [final' Hfinal]]; rewrite ?He, ?Hfinal in Hres |- *;
    [done|].
  by injection Hres as ->.
Qed.

(** A partition image made of valid units followed by erased flash, when
    the window is a whole number of 16-byte chunks, ends with an erased
    chunk, and shows no payload boundary to the second loop: the scan
    falls back to the whole window and returns the data of its leading
    valid units, all of them up to the first unit that fails. *)
Theorem scan_without_boundary (dumpfile : string) (dump : bytes) (n : string)
    (layout : FlashLayout.t) (out : string) (extract : bool)
    (partition : FlashPartition.t) (k : nat) :
  List.find (named n) (FlashLayout.partitions layout) = Some partition ->
  let data := window dump partition in
  let size := Z.of_N (FlashPartition.size partition) in
  size mod 16 = 0 ->
  erased_chunk data size ->
  (forall m : nat, 0 < size - 16 * Z.of_nat m ->
     ~ payload_boundary data (size - 16 * Z.of_nat m)) ->
  (0 < k)%nat ->
  (34 * k < length data)%nat ->
  (forall j, (j < k)%nat -> unit_valid data j = true) ->
  unit_valid data k = false ->
  __scan_pattern_find_payload dumpfile dump n layout out extract
  = (OpenDump dumpfile
       :: scan_outputs dumpfile n out partition extract (validated_data data k),
     Returned (validated_data data k)).
Proof.
  intros Hfind data size Hmod Hlast Hnone Hk Hlen Hvalid Hfail.
  pose proof (erased_chunk_bounds _ _ Hlast) as Hsize.
  assert (Hmarker : find_end_marker data size = size).
  { rewrite find_end_marker_eq.
    rewrite (proj2 (Z.ltb_lt _ _)) by lia.
    rewrite bool_decide_eq_true_2; [done|].
    by apply datablock_erased; [lia|]. }
  assert (Hregion : candidate_region dump partition = ([], Returned data)).
  { pose proof (candidate_region_marker dump partition) as Hcand.
    cbv zeta in Hcand. fold (window dump partition) in Hcand.
    fold data size in Hcand. rewrite Hmarker in Hcand.
    rewrite Hcand by lia.
    destruct (find_boundary_spec data size ltac:(lia) Hmod)
      as [(m & Hm0 & Hm & _) | [_ ->]].
    - by apply Hnone in Hm.
    - by rewrite py_slice_prefix by lia. }
  rewrite (scan_known _ _ _ _ _ _ _ Hfind).
  apply scan_partition_walk_returns with data; [by rewrite Hregion|].
  rewrite (crc_walk_first_failure _ data k Hlen Hvalid Hfail).
  by rewrite bool_decide_eq_false_2 by lia.
Qed.

End ScanComposition.

(** ** The further statements at work in the small world *)

Lemma crc_walk_outcome_witness :
  length (take 68 (Demo.boot_window ++ Demo.boot_window)) = (34 * 2)%nat
  /\ (((0 < 2)%nat
       /\ unit_valid (env := Demo.world)
            (take 68 (Demo.boot_window ++ Demo.boot_window)) 0 = false
       /\ crc_walk (env := Demo.world) "boot"
            (take 68 (Demo.boot_window ++ Demo.boot_window))
          = raise (ChecksumMismatch "boot"))
      \/ exists k : nat,
           (k <= 2)%nat
           /\ (forall j, (j < k)%nat ->
                 length (unit_data
                           (take 68 (Demo.boot_window ++ Demo.boot_window)) j)
                 = 32%nat
                 /\ length (unit_crc
                              (take 68 (Demo.boot_window ++ Demo.boot_window))
                              j)
                    = 2%nat
                 /\ unit_valid (env := Demo.world)
                      (take 68 (Demo.boot_window ++ Demo.boot_window)) j
                    = true)
           /\ (k = 2%nat
               \/ unit_valid (env := Demo.world)
                    (take 68 (Demo.boot_window ++ Demo.boot_window)) k
                  = false)
           /\ ((0 < 2)%nat -> (0 < k)%nat)
           /\ crc_walk (env := Demo.world) "boot"
                (take 68 (Demo.boot_window ++ Demo.boot_window))
              = mret (validated_data
                        (take 68 (Demo.boot_window ++ Demo.boot_window)) k)).
Proof.
  assert (H : length (take 68 (Demo.boot_window ++ Demo.boot_window))
              = (34 * 2)%nat)
    by (vm_compute; reflexivity).
  exact (conj H (crc_walk_outcome (env := Demo.world) "boot"
                   (take 68 (Demo.boot_window ++ Demo.boot_window)) 2 H)).
Defined.

Lemma candidate_region_prefix_witness :
  result (candidate_region Demo.dump Demo.app)
  = Returned (take 34 Demo.app_window)
  /\ take 34 Demo.app_window <> []
  /\ take 34 Demo.app_window `prefix_of` window Demo.dump Demo.app.
Proof.
  assert (H : result (candidate_region Demo.dump Demo.app)
              = Returned (take 34 Demo.app_window))
    by (vm_compute; reflexivity).
  exact (conj H (candidate_region_prefix Demo.dump Demo.app
                   (take 34 Demo.app_window) H)).
Defined.

Lemma scan_recovers_validated_blocks_witness :
  result (__scan_pattern_find_payload (env := Demo.world) "dump.bin"
            Demo.dump "boot" Demo.layout "/work" false)
  = Returned (replicate 32 "A"%byte)
  /\ replicate 32 "A"%byte <> []
  /\ exists (partition : FlashPartition.t) (payload : bytes) (k : nat),
       List.find (named "boot") (FlashLayout.partitions Demo.layout)
       = Some partition
       /\ payload `prefix_of` window Demo.dump partition
       /\ (0 < k <= unit_count payload)%nat
       /\ (forall j, (j < k)%nat ->
             unit_valid (env := Demo.world) payload j = true)
       /\ replicate 32 "A"%byte = validated_data payload k.
Proof.
  assert (H : result (__scan_pattern_find_payload (env := Demo.world)
                        "dump.bin" Demo.dump "boot" Demo.layout "/work" false)
              = Returned (replicate 32 "A"%byte))
    by (vm_compute; reflexivity).
  exact (conj H (scan_recovers_validated_blocks (env := Demo.world)
                   "dump.bin" Demo.dump "boot" Demo.layout "/work" false
                   (replicate 32 "A"%byte) H)).
Defined.

Lemma scan_error_conditions_witness :
  result (__scan_pattern_find_payload (env := Demo.world) "dump.bin"
            Demo.full_dump "app" Demo.layout "/work" false)
  = Raised (EndOfPartitionNotFound "app")
  /\ "app" = "app"
  /\ exists partition,
       List.find (named "app") (FlashLayout.partitions Demo.layout)
       = Some partition
       /\ forall k : nat,
            0 < Z.of_N (FlashPartition.size partition) - 16 * Z.of_nat k ->
            ~ erased_chunk (window Demo.full_dump partition)
                (Z.of_N (FlashPartition.size partition) - 16 * Z.of_nat k).
Proof.
  assert (H : result (__scan_pattern_find_payload (env := Demo.world)
                        "dump.bin" Demo.full_dump "app" Demo.layout "/work"
                        false)
              = Raised (EndOfPartitionNotFound "app"))
    by (vm_compute; reflexivity).
  exact (conj H (proj1 (proj2 (scan_error_conditions (env := Demo.world)
                                 "dump.bin" Demo.full_dump "app" Demo.layout
                                 "/work" false))
                   "app" H)).
Defined.

Lemma scan_reads_only_window_witness :
  (forall p, p ∈ FlashLayout.partitions Demo.layout ->
             FlashPartition.name p = "app" ->
             window Demo.dump p = window Demo.other_dump p)
  /\ __scan_pattern_find_payload (env := Demo.world) "dump.bin" Demo.dump
       "app" Demo.layout "/work" true
     = __scan_pattern_find_payload (env := Demo.world) "dump.bin"
         Demo.other_dump "app" Demo.layout "/work" true.
Proof.
  assert (H : forall p, p ∈ FlashLayout.partitions Demo.layout ->
                        FlashPartition.name p = "app" ->
                        window Demo.dump p = window Demo.other_dump p).
  { intros p Hp Hname. apply list_elem_of_In in Hp. simpl in Hp.
    destruct Hp as [<- | [<- | []]]; [discriminate|].
    vm_compute. reflexivity. }
  exact (conj H (scan_reads_only_window (env := Demo.world) "dump.bin"
                   Demo.dump Demo.other_dump "app" Demo.layout "/work" true H)).
Defined.

Lemma erased_window_witness :
  List.find (named "boot") (FlashLayout.partitions Demo.layout) = Some Demo.boot
  /\ (0 < FlashPartition.size Demo.boot)%N
  /\ Z.of_N (FlashPartition.size Demo.boot) mod 16 = 0
  /\ window Demo.erased_dump Demo.boot
     = replicate (N.to_nat (FlashPartition.size Demo.boot)) xff
  /\ candidate_region Demo.erased_dump Demo.boot
     = ([], Returned (window Demo.erased_dump Demo.boot))
  /\ (unit_valid (env := Demo.world) (window Demo.erased_dump Demo.boot) 0
      = false ->
      __scan_pattern_find_payload (env := Demo.world) "dump.bin"
        Demo.erased_dump "boot" Demo.layout "/work" false
      = ([OpenDump "dump.bin"], Raised (ChecksumMismatch "boot"))).
Proof.
  assert (H : window Demo.erased_dump Demo.boot
              = replicate (N.to_nat (FlashPartition.size Demo.boot)) xff)
    by (vm_compute; reflexivity).
  exact (conj eq_refl (conj eq_refl (conj eq_refl (conj H
           (erased_window (env := Demo.world) "dump.bin" Demo.erased_dump
              "boot" Demo.layout "/work" false Demo.boot
              eq_refl eq_refl eq_refl H))))).
Defined.

Lemma carve_returns_parsed_witness :
  result (__carve_and_write_rbl_containers (env := Demo.world) "dump.bin"
            Demo.rbl_dump (Some Demo.layout) "/work" true false)
  = Returned [Demo.app_container;
              Container.mk (Header.mk "app" "1.0" "NONE") None]
  /\ [Demo.app_container; Container.mk (Header.mk "app" "1.0" "NONE") None]
     = omap (parsed_at (env := Demo.world) Demo.rbl_dump (Some Demo.layout))
         (find_rbl_containers_indices (Env := Demo.world) Demo.rbl_dump).
Proof.
  assert (H : result (__carve_and_write_rbl_containers (env := Demo.world)
                        "dump.bin" Demo.rbl_dump (Some Demo.layout) "/work"
                        true false)
              = Returned [Demo.app_container;
                          Container.mk (Header.mk "app" "1.0" "NONE") None])
    by (vm_compute; reflexivity).
  exact (conj H (carve_returns_parsed (env := Demo.world) "dump.bin"
                   Demo.rbl_dump (Some Demo.layout) "/work" true false
                   [Demo.app_container;
                    Container.mk (Header.mk "app" "1.0" "NONE") None] H)).
Defined.

Lemma empty_layout_index_error_witness :
  FlashLayout.partitions Demo.empty_layout = []
  /\ from_bytestream (Env := Demo.world) Demo.rbl_dump 2
       (Some Demo.empty_layout) = Parsed Demo.app_container
  /\ Container.payload Demo.app_container = Some ["p"; "q"]%byte
  /\ carve_loop (env := Demo.world) "dump.bin" Demo.rbl_dump
       (Some Demo.empty_layout) "/work" true false [] [2%N; 6%N]
     = ([Print (MsgOffset 2); Print (MsgContainer "app" "NONE" 2)],
        Raised IndexError).
Proof.
  exact (conj eq_refl (conj eq_refl (conj eq_refl
           (empty_layout_index_error (env := Demo.world) "dump.bin"
              Demo.rbl_dump Demo.empty_layout "/work" true false [] 2%N
              [6%N] Demo.app_container ["p"; "q"]%byte
              eq_refl eq_refl eq_refl)))).
Defined.

Lemma matched_container_uses_named_partition_witness :
  FlashLayout.partitions Demo.layout = [Demo.boot] ++ Demo.app :: []
  /\ FlashPartition.name Demo.app
     = Header.name (Container.header Demo.app_container)
  /\ (forall q, q ∈ [Demo.boot] ->
                FlashPartition.name q
                <> Header.name (Container.header Demo.app_container))
  /\ Container.payload Demo.app_container = Some ["p"; "q"]%byte
  /\ carve_container (env := Demo.world) "dump.bin" (Some Demo.layout)
       "/work" true false Demo.app_container
     = (container_outputs (env := Demo.world) "dump.bin" "/work" false
          Demo.app_container ["p"; "q"]%byte Demo.app,
        Returned tt).
Proof.
  assert (H : forall q, q ∈ [Demo.boot] ->
                FlashPartition.name q
                <> Header.name (Container.header Demo.app_container)).
  { intros q Hq. apply list_elem_of_In in Hq. simpl in Hq.
    destruct Hq as [<- | []]. discriminate. }
  exact (conj eq_refl (conj eq_refl (conj H (conj eq_refl
           (matched_container_uses_named_partition (env := Demo.world)
              "dump.bin" Demo.layout [Demo.boot] [] Demo.app "/work" false
              Demo.app_container ["p"; "q"]%byte
              eq_refl eq_refl H eq_refl))))).
Defined.

Lemma no_extraction_no_output_witness :
  Args.extract (Demo.args "demo" false) = false
  /\ (Args.output_dir (Demo.args "demo" false) = ""
      \/ Args.output_dir (Demo.args "demo" false)
         = getcwd (Env := Demo.world))
  /\ Forall (read_only (Args.file (Demo.args "demo" false)))
       (trace (dissect_dump_file (env := Demo.world) (Demo.args "demo" false)
                 Demo.dump)).
Proof.
  exact (conj eq_refl (conj (or_introl eq_refl)
           (no_extraction_no_output (env := Demo.world)
              (Demo.args "demo" false) Demo.dump eq_refl
              (or_introl eq_refl)))).
Defined.

Lemma output_dir_forces_extraction_witness :
  Args.output_dir Demo.args_out <> ""
  /\ Args.output_dir Demo.args_out <> getcwd (Env := Demo.world)
  /\ Args.extract Demo.args_out = false
  /\ dissect_dump_file (env := Demo.world) Demo.args_out Demo.dump
     = (Print MsgAssumeExtract
          :: trace (dissect_dump_file (env := Demo.world)
                      (Args.mk "dump.bin" "demo" "/out" true false) Demo.dump),
        result (dissect_dump_file (env := Demo.world)
                  (Args.mk "dump.bin" "demo" "/out" true false) Demo.dump)).
Proof.
  assert (H1 : Args.output_dir Demo.args_out <> "") by discriminate.
  assert (H2 : Args.output_dir Demo.args_out <> getcwd (Env := Demo.world))
    by discriminate.
  exact (conj H1 (conj H2 (conj eq_refl
           (output_dir_forces_extraction (env := Demo.world) Demo.args_out
              Demo.dump H1 H2 eq_refl)))).
Defined.


Lemma scan_writes_what_it_returns_witness :
  List.find (named "app") (FlashLayout.partitions Demo.layout) = Some Demo.app
  /\ result (__scan_pattern_find_payload (env := Demo.world) "dump.bin"
               Demo.dump "app" Demo.layout "/work" true)
     = Returned (take 32 Demo.app_window)
  /\ trace (__scan_pattern_find_payload (env := Demo.world) "dump.bin"
              Demo.dump "app" Demo.layout "/work" true)
     = OpenDump "dump.bin"
         :: scan_outputs (env := Demo.world) "dump.bin" "app" "/work" Demo.app
              true (take 32 Demo.app_window).
Proof.
  assert (H : result (__scan_pattern_find_payload (env := Demo.world)
                        "dump.bin" Demo.dump "app" Demo.layout "/work" true)
              = Returned (take 32 Demo.app_window))
    by (vm_compute; reflexivity).
  exact (conj eq_refl (conj H
           (scan_writes_what_it_returns (env := Demo.world) "dump.bin"
              Demo.dump "app" Demo.layout "/work" true Demo.app
              (take 32 Demo.app_window) eq_refl H))).
Defined.

(** The [boot] window of the demo dump: one valid unit, then erased
    flash, and no boundary for the second loop. *)
Lemma scan_without_boundary_witness :
  List.find (named "boot") (FlashLayout.partitions Demo.layout) = Some Demo.boot
  /\ 96 mod 16 = 0
  /\ erased_chunk (window Demo.dump Demo.boot) 96
  /\ (forall m : nat, 0 < 96 - 16 * Z.of_nat m ->
        ~ payload_boundary (window Demo.dump Demo.boot) (96 - 16 * Z.of_nat m))
  /\ (0 < 1)%nat
  /\ (34 * 1 < length (window Demo.dump Demo.boot))%nat
  /\ (forall j, (j < 1)%nat ->
        unit_valid (env := Demo.world) (window Demo.dump Demo.boot) j = true)
  /\ unit_valid (env := Demo.world) (window Demo.dump Demo.boot) 1 = false
  /\ __scan_pattern_find_payload (env := Demo.world) "dump.bin" Demo.dump
       "boot" Demo.layout "/work" false
     = (OpenDump "dump.bin"
          :: scan_outputs (env := Demo.world) "dump.bin" "boot" "/work"
               Demo.boot false
               (validated_data (window Demo.dump Demo.boot) 1),
        Returned (validated_data (window Demo.dump Demo.boot) 1)).
Proof.
  assert (H1 : erased_chunk (window Demo.dump Demo.boot) 96)
    by (apply (bool_decide_eq_true_1 _); vm_compute; reflexivity).
  assert (H2 : forall m : nat, 0 < 96 - 16 * Z.of_nat m ->
                 ~ payload_boundary (window Demo.dump Demo.boot)
                     (96 - 16 * Z.of_nat m)).
  { intros m Hm.
    do 6 (destruct m as [|m];
          [apply (bool_decide_eq_false_1 _); vm_compute; reflexivity|]).
    lia. }
  assert (H3 : (34 * 1 < length (window Demo.dump Demo.boot))%nat)
    by (vm_compute; lia).
  assert (H4 : forall j, (j < 1)%nat ->
                 unit_valid (env := Demo.world) (window Demo.dump Demo.boot) j
                 = true).
  { intros j Hj. replace j with 0%nat by lia. vm_compute. reflexivity. }
  assert (H5 : unit_valid (env := Demo.world) (window Demo.dump Demo.boot) 1
               = false) by (vm_compute; reflexivity).
  exact (conj eq_refl (conj eq_refl (conj H1 (conj H2
           (conj (Nat.lt_0_1) (conj H3 (conj H4 (conj H5
              (scan_without_boundary (env := Demo.world) "dump.bin" Demo.dump
                 "boot" Demo.layout "/work" false Demo.boot 1
                 eq_refl eq_refl H1 H2 Nat.lt_0_1 H3 H4 H5))))))))).
Defined.
